(** * PhotographerClientManager: the client/category repository

    A shallow embedding of [Config], [Database.execute_query],
    [ClientManager] and the handlers of the main window that carry logic
    (deepseek_python_20251207_1f32fc.py), and the properties of these
    operations.

    Modelling conventions.
    - The SQLite store is a record of two tables, each a list of rows in
      rowid order, plus the two AUTOINCREMENT counters of sqlite_sequence.
    - Every SQL text of the source is one Rocq function named [sql_...],
      documented with that text; [execute_query] adds the commit/raise
      behaviour of [Database.execute_query].
    - Python exceptions are the [Raise] case of [result]; code with database
      effects lives in the state-and-exception monad [M].
    - [datetime.now()], the file system, [hash] and the PIL image pipeline are
      inputs: the clock readings are arguments, the rest is the record [OS].
    - Text is a [string] of bytes, the UTF-8 encoding of the Python text.
      [strip] knows the Unicode white space; [lower] and [like] work byte by
      byte, which is exact on ASCII text (a non-ASCII character is several
      bytes to the [_] of LIKE, and keeps its case).
    - Tk is the record [Tk]: the handlers depend on it only through the
      colors it accepts.
    - Rowids are unbounded integers (SQLite's 64-bit limit is not reached). *)

From Stdlib Require Import ZArith List String Ascii Bool Arith Lia.
From Stdlib Require Import Permutation Sorted DecimalString.
Import ListNotations.

Local Open Scope string_scope.
Local Open Scope Z_scope.

(** ** Python exceptions and results *)

Inductive exn : Type :=
| ValueError (msg : string)
| ProgrammingError          (* sqlite3: wrong number of bindings *)
| OperationalError          (* sqlite3: syntax error, no such column *)
| IntegrityError            (* sqlite3: UNIQUE / NOT NULL constraint *)
| OSError (msg : string)    (* os.listdir, Image.open, Image.save *)
| OtherError (msg : string).

Inductive result (A : Type) : Type :=
| Ok (a : A)
| Raise (e : exn).

Arguments Ok {A} a.
Arguments Raise {A} e.

Definition result_bind {A B} (r : result A) (k : A -> result B) : result B :=
  match r with
  | Ok a => k a
  | Raise e => Raise e
  end.

(** [try: body  except: handler] with a bare [except], which catches every
    exception. *)
Definition try_except {A} (body : result A) (handler : result A) : result A :=
  match body with
  | Ok a => Ok a
  | Raise _ => handler
  end.

(** ** Strings: the Python and SQLite text operations the code relies on *)

Definition is_upper (c : ascii) : bool :=
  let n := nat_of_ascii c in (65 <=? n)%nat && (n <=? 90)%nat.

Definition lower_char (c : ascii) : ascii :=
  if is_upper c then ascii_of_nat (nat_of_ascii c + 32) else c.

(** [str.lower()] on the ASCII letters. *)
Fixpoint lower (s : string) : string :=
  match s with
  | EmptyString => EmptyString
  | String c s' => String (lower_char c) (lower s')
  end.

(** [str.endswith(suffix)]. *)
Fixpoint endswith (s suffix : string) : bool :=
  String.eqb s suffix
  || match s with
     | EmptyString => false
     | String _ s' => endswith s' suffix
     end.

(** [str.isspace()] for a character of one byte: TAB, LF, VT, FF, CR, the
    four separators FS..US and the space. *)
Definition is_space (c : ascii) : bool :=
  let n := nat_of_ascii c in
  ((9 <=? n)%nat && (n <=? 13)%nat) || ((28 <=? n)%nat && (n <=? 32)%nat).

(** The white space of two bytes: U+0085 (C2 85) and U+00A0 (C2 A0). *)
Definition two_byte_space (a b : ascii) : bool :=
  (nat_of_ascii a =? 194)%nat
  && ((nat_of_ascii b =? 133)%nat || (nat_of_ascii b =? 160)%nat).

(** The white space of three bytes: U+1680 (E1 9A 80), U+2000..U+200A
    (E2 80 80..8A), U+2028, U+2029 (E2 80 A8, A9), U+202F (E2 80 AF),
    U+205F (E2 81 9F) and U+3000 (E3 80 80). With the characters above these
    are all the characters for which [str.isspace()] holds. *)
Definition three_byte_space (a b c : ascii) : bool :=
  let x := nat_of_ascii a in
  let y := nat_of_ascii b in
  let z := nat_of_ascii c in
  ((x =? 225) && (y =? 154) && (z =? 128))%nat
  || ((x =? 226) && (y =? 128)
      && (((128 <=? z) && (z <=? 138)) || (z =? 168) || (z =? 169) || (z =? 175)))%nat
  || ((x =? 226) && (y =? 129) && (z =? 159))%nat
  || ((x =? 227) && (y =? 128) && (z =? 128))%nat.

(** The text that follows the white-space character [s] starts with, if it
    starts with one. *)
Definition after_space (s : string) : option string :=
  match s with
  | EmptyString => None
  | String a s1 =>
      if is_space a then Some s1
      else
        match s1 with
        | EmptyString => None
        | String b s2 =>
            if two_byte_space a b then Some s2
            else
              match s2 with
              | EmptyString => None
              | String c s3 => if three_byte_space a b c then Some s3 else None
              end
        end
  end.

(** [str.lstrip()]: drops white-space characters from the front. *)
Fixpoint lstrip (s : string) : string :=
  match s with
  | EmptyString => EmptyString
  | String a s1 =>
      if is_space a then lstrip s1
      else
        match s1 with
        | EmptyString => s
        | String b s2 =>
            if two_byte_space a b then lstrip s2
            else
              match s2 with
              | EmptyString => s
              | String c s3 => if three_byte_space a b c then lstrip s3 else s
              end
        end
  end.

(** The text consists of white space only. *)
Definition blank (s : string) : bool := String.eqb (lstrip s) "".

(** [str.rstrip()]: keeps the text up to where only white space follows. *)
Fixpoint rstrip (s : string) : string :=
  match s with
  | EmptyString => EmptyString
  | String a s1 => if blank s then EmptyString else String a (rstrip s1)
  end.

(** [str.strip()]. *)
Definition strip (s : string) : string := rstrip (lstrip s).

(** [str(n)] for an integer. *)
Definition str_of_int (n : Z) : string := NilZero.string_of_int (Z.to_int n).

(** SQLite's [text LIKE pattern] (no ESCAPE clause): [%] matches any run of
    characters, [_] matches exactly one character, every other character
    matches itself up to ASCII case. The model walks the bytes of the UTF-8
    text, so its [_] takes one byte where SQLite takes one code point: the
    two agree on ASCII text, and on every pattern without [_]. *)
Fixpoint like (pattern : string) : string -> bool :=
  match pattern with
  | EmptyString =>
      fun s => match s with EmptyString => true | String _ _ => false end
  | String c p' =>
      if Ascii.eqb c "%" then
        fix any (s : string) : bool :=
          like p' s
          || match s with
             | EmptyString => false
             | String _ s' => any s'
             end
      else if Ascii.eqb c "_" then
        fun s => match s with
                 | EmptyString => false
                 | String _ s' => like p' s'
                 end
      else
        fun s => match s with
                 | EmptyString => false
                 | String d s' =>
                     Ascii.eqb (lower_char c) (lower_char d) && like p' s'
                 end
  end.


(** Number of occurrences of a character, used to count the [?] placeholders
    of a statement text. *)
Fixpoint count_char (c : ascii) (s : string) : nat :=
  match s with
  | EmptyString => 0%nat
  | String d s' => ((if Ascii.eqb c d then 1 else 0) + count_char c s')%nat
  end.

(** ** The store *)

(** A value bound to a [?] placeholder: [None], an [int] or a [str]. *)
Inductive value : Type :=
| VNull
| VInt (n : Z)
| VText (s : string).

(** One row of [clients]; [name] and [folder_path] are NOT NULL, every other
    column is nullable. Fields are named as the queries name them ([c.name]). *)
Record client : Type := mkClient {
  c_id : Z;
  c_name : string;
  c_folder_path : string;
  c_type_id : option Z;
  c_date : option string;
  c_phone : option string;
  c_email : option string;
  c_notes : option string;
  c_avatar_path : option string;
  c_created_at : option string;
  c_updated_at : option string
}.

(** One row of [types] ([t.name], [t.color]). *)
Record type_row : Type := mkType {
  t_id : Z;
  t_name : string;
  t_color : option string;
  t_created_at : option string;
  t_client_count : Z
}.

Record DB : Type := mkDB {
  clients : list client;
  types : list type_row;
  clients_seq : Z;     (* sqlite_sequence entry of clients *)
  types_seq : Z        (* sqlite_sequence entry of types *)
}.

(** ** The state-and-exception monad of the repository *)

Definition M (A : Type) : Type := DB -> DB * result A.

Definition ret {A} (a : A) : M A := fun db => (db, Ok a).

Definition raise {A} (e : exn) : M A := fun db => (db, Raise e).

Definition bind {A B} (m : M A) (k : A -> M B) : M B :=
  fun db =>
    match m db with
    | (db', Ok a) => k a db'
    | (db', Raise e) => (db', Raise e)
    end.

Definition lift {A} (r : result A) : M A := fun db => (db, r).

Declare Scope repo_scope.
Delimit Scope repo_scope with repo.
Notation "x <- m ;; k" := (bind m (fun x => k))
  (at level 61, m at next level, right associativity) : repo_scope.
Notation "m ;;; k" := (bind m (fun _ => k))
  (at level 61, right associativity) : repo_scope.

(** [Database.execute_query]: runs one statement on a connection of its own
    and commits; when the statement raises, the connection is closed without
    a commit and the exception is re-raised, so the store is as before. *)
Definition execute_query {A} (stmt : DB -> result (DB * A)) : M A :=
  fun db =>
    match stmt db with
    | Ok (db', a) => (db', Ok a)
    | Raise e => (db, Raise e)
    end.

(** ** The SQL statements of the source *)

(** AUTOINCREMENT: the new rowid is one more than the largest rowid the table
    holds or has ever held. *)
Definition max_rowid (ids : list Z) : Z := fold_right Z.max 0 ids.

Definition next_rowid (seq : Z) (ids : list Z) : Z :=
  Z.max seq (max_rowid ids) + 1.

(** [SELECT id FROM types WHERE name = ?] *)
Definition sql_select_type_id (name : string) (db : DB) : result (DB * list Z) :=
  Ok (db, map t_id (filter (fun t => String.eqb (t_name t) name) (types db))).

(** [INSERT INTO types (name, color, created_at) VALUES (?, ?, ?)];
    [name] is UNIQUE, [client_count] takes its default 0. The result is
    [cursor.lastrowid]. *)
Definition sql_insert_type (name color created_at : string) (db : DB)
  : result (DB * Z) :=
  if existsb (fun t => String.eqb (t_name t) name) (types db) then
    Raise IntegrityError
  else
    let new_id := next_rowid (types_seq db) (map t_id (types db)) in
    Ok (mkDB (clients db)
             (types db ++ [mkType new_id name (Some color) (Some created_at) 0])
             (clients_seq db) new_id,
        new_id).

(** [INSERT INTO clients (name, folder_path, type_id, date, phone, email,
    notes, avatar_path, created_at, updated_at) VALUES (?, ?, ?, ?, ?, ?, ?,
    ?, ?, ?)] *)
Definition sql_insert_client (name folder_path : string) (type_id : Z)
    (date : option string) (phone email notes avatar_path : string)
    (created_at updated_at : string) (db : DB) : result (DB * Z) :=
  let new_id := next_rowid (clients_seq db) (map c_id (clients db)) in
  Ok (mkDB (clients db ++
              [mkClient new_id name folder_path (Some type_id) date
                 (Some phone) (Some email) (Some notes) (Some avatar_path)
                 (Some created_at) (Some updated_at)])
           (types db) new_id (types_seq db),
      new_id).

(** [SELECT COUNT( * ) FROM clients WHERE type_id = ?] *)
Definition count_clients_of_type (type_id : Z) (cs : list client) : Z :=
  Z.of_nat (List.length (filter (fun c => match c_type_id c with
                                     | Some k => k =? type_id
                                     | None => false
                                     end) cs)).

Definition set_client_count (n : Z) (t : type_row) : type_row :=
  mkType (t_id t) (t_name t) (t_color t) (t_created_at t) n.

(** [UPDATE types SET client_count = (SELECT COUNT( * ) FROM clients WHERE
    type_id = ?) WHERE id = ?] *)
Definition sql_update_type_count (p1 p2 : Z) (db : DB) : result (DB * option Z) :=
  Ok (mkDB (clients db)
           (map (fun t => if t_id t =? p2
                          then set_client_count (count_clients_of_type p1 (clients db)) t
                          else t)
                (types db))
           (clients_seq db) (types_seq db),
      None).

(** [DELETE FROM clients WHERE id = ?] *)
Definition sql_delete_client (client_id : Z) (db : DB) : result (DB * option Z) :=
  Ok (mkDB (filter (fun c => negb (c_id c =? client_id)) (clients db))
           (types db) (clients_seq db) (types_seq db),
      None).

(** A row of [SELECT c.*, t.name as type_name, t.color as type_color]. *)
Record joined : Type := mkJoined {
  j_client : client;
  type_name : option string;
  type_color : option string
}.

(** [FROM clients c LEFT JOIN types t ON c.type_id = t.id], clients scanned in
    rowid order. *)
Definition left_join (db : DB) : list joined :=
  flat_map
    (fun c =>
       match filter (fun t => match c_type_id c with
                              | Some k => k =? t_id t
                              | None => false
                              end) (types db) with
       | [] => [mkJoined c None None]
       | ts => map (fun t => mkJoined c (Some (t_name t)) (t_color t)) ts
       end)
    (clients db).

(** SQLite's three-valued [X LIKE pattern] and [OR]; NULL is [None]. *)
Definition sql_like (x : option string) (pattern : string) : option bool :=
  option_map (like pattern) x.

Definition sql_or (a b : option bool) : option bool :=
  match a, b with
  | Some true, _ | _, Some true => Some true
  | Some false, Some false => Some false
  | _, _ => None
  end.

(** A WHERE clause keeps the rows on which its condition is true. *)
Definition sql_where (cond : option bool) : bool :=
  match cond with
  | Some true => true
  | _ => false
  end.

(** Comparison of two TEXT-or-NULL values under the BINARY collation; NULL
    sorts before every text. *)
Definition sql_compare (a b : option string) : comparison :=
  match a, b with
  | None, None => Eq
  | None, Some _ => Lt
  | Some _, None => Gt
  | Some x, Some y => String.compare x y
  end.

(** ORDER BY is a stable sort of the scanned rows: SQL leaves the order of
    rows with equal keys open, the model keeps them in rowid order. SQLite
    may answer [ORDER BY c.date DESC] by walking [idx_clients_date]
    backwards, which gives rows of equal date in the opposite order; what is
    proved of a listing (its rows, and that it is sorted on the keys) holds
    for either order of the ties. *)
Fixpoint insert_by {A} (before : A -> A -> bool) (x : A) (l : list A) : list A :=
  match l with
  | [] => [x]
  | y :: l' => if before x y then x :: l else y :: insert_by before x l'
  end.

Definition order_by {A} (before : A -> A -> bool) (l : list A) : list A :=
  fold_right (insert_by before) [] l.

(** [ORDER BY c.date DESC, c.name] *)
Definition by_date_desc_name (a b : joined) : bool :=
  match sql_compare (c_date (j_client a)) (c_date (j_client b)) with
  | Gt => true
  | Lt => false
  | Eq => String.leb (c_name (j_client a)) (c_name (j_client b))
  end.

(** [ORDER BY c.date DESC] *)
Definition by_date_desc (a b : joined) : bool :=
  match sql_compare (c_date (j_client a)) (c_date (j_client b)) with
  | Lt => false
  | _ => true
  end.

(** [SELECT c.*, t.name as type_name, t.color as type_color FROM clients c
    LEFT JOIN types t ON c.type_id = t.id ORDER BY c.date DESC, c.name] *)
Definition sql_select_all_clients (db : DB) : result (DB * list joined) :=
  Ok (db, order_by by_date_desc_name (left_join db)).

(** [SELECT c.*, t.name as type_name, t.color as type_color FROM clients c
    LEFT JOIN types t ON c.type_id = t.id WHERE c.name LIKE ? OR c.phone
    LIKE ? OR c.notes LIKE ? OR t.name LIKE ? ORDER BY c.date DESC] *)
Definition sql_search_clients (p1 p2 p3 p4 : string) (db : DB)
  : result (DB * list joined) :=
  Ok (db,
      order_by by_date_desc
        (filter (fun r =>
                   sql_where
                     (sql_or (sql_or (sql_or
                        (sql_like (Some (c_name (j_client r))) p1)
                        (sql_like (c_phone (j_client r)) p2))
                        (sql_like (c_notes (j_client r)) p3))
                        (sql_like (type_name r) p4)))
                (left_join db))).

(** [ORDER BY client_count DESC] *)
Definition by_count_desc (a b : type_row) : bool :=
  t_client_count b <=? t_client_count a.

(** [SELECT * FROM types ORDER BY client_count DESC] *)
Definition sql_select_types (db : DB) : result (DB * list type_row) :=
  Ok (db, order_by by_count_desc (types db)).

(** *** The statement built by [update_client] *)

Definition client_columns : list string :=
  ["id"; "name"; "folder_path"; "type_id"; "date"; "phone"; "email"; "notes";
   "avatar_path"; "created_at"; "updated_at"].

(** [query = f"UPDATE clients SET {set_str}, updated_at = ? WHERE id = ?"] with
    [set_str = ", ".join(set_clause)] and one ["{key} = ?"] per key. *)
Definition update_clients_query (keys : list string) : string :=
  "UPDATE clients SET "
  ++ String.concat ", " (map (fun key => key ++ " = ?") keys)
  ++ ", updated_at = ? WHERE id = ?".

(** A bound value stored in a TEXT column (TEXT affinity turns an integer
    into its decimal text). *)
Definition as_text (v : value) : option string :=
  match v with
  | VNull => None
  | VInt n => Some (str_of_int n)
  | VText s => Some s
  end.

Definition set_column (key : string) (v : value) (c : client) : result client :=
  let 'mkClient i n f t d p e o a cr u := c in
  if String.eqb key "name" then
    match as_text v with
    | Some s => Ok (mkClient i s f t d p e o a cr u)
    | None => Raise IntegrityError
    end
  else if String.eqb key "folder_path" then
    match as_text v with
    | Some s => Ok (mkClient i n s t d p e o a cr u)
    | None => Raise IntegrityError
    end
  else if String.eqb key "type_id" then
    match v with
    | VNull => Ok (mkClient i n f None d p e o a cr u)
    | VInt k => Ok (mkClient i n f (Some k) d p e o a cr u)
    | VText _ => Raise (OtherError "text in an integer column: not modelled")
    end
  else if String.eqb key "date" then Ok (mkClient i n f t (as_text v) p e o a cr u)
  else if String.eqb key "phone" then Ok (mkClient i n f t d (as_text v) e o a cr u)
  else if String.eqb key "email" then Ok (mkClient i n f t d p (as_text v) o a cr u)
  else if String.eqb key "notes" then Ok (mkClient i n f t d p e (as_text v) a cr u)
  else if String.eqb key "avatar_path" then Ok (mkClient i n f t d p e o (as_text v) cr u)
  else if String.eqb key "created_at" then Ok (mkClient i n f t d p e o a (as_text v) u)
  else if String.eqb key "updated_at" then Ok (mkClient i n f t d p e o a cr (as_text v))
  else Raise (OtherError "assignment to the rowid: not modelled").

Fixpoint set_columns (assignments : list (string * value)) (c : client)
  : result client :=
  match assignments with
  | [] => Ok c
  | (key, v) :: rest => result_bind (set_column key v c) (set_columns rest)
  end.

Fixpoint update_rows (assignments : list (string * value)) (where_id : Z)
    (cs : list client) : result (list client) :=
  match cs with
  | [] => Ok []
  | c :: cs' =>
      result_bind
        (if c_id c =? where_id then set_columns assignments c else Ok c)
        (fun c' => result_bind (update_rows assignments where_id cs')
                     (fun cs'' => Ok (c' :: cs'')))
  end.

(** [UPDATE clients SET key1 = ?, ..., keyn = ?, updated_at = ? WHERE id = ?]
    run with the sequence [params].
    Preparing the statement fails on the text [SET , updated_at = ?] that an
    empty key list gives (syntax error) and on a key that is no column of
    [clients]; keys that are SQL fragments are outside the model. Binding then
    needs exactly as many values as the text has [?] placeholders; sqlite3
    raises ProgrammingError otherwise and the statement is not run. *)
Definition sql_update_clients (keys : list string) (params : list value)
    (db : DB) : result (DB * option Z) :=
  match keys with
  | [] => Raise OperationalError
  | _ :: _ =>
      if negb (forallb (fun key => existsb (String.eqb key) client_columns) keys)
      then Raise OperationalError
      else if negb (List.length params
                    =? count_char "?" (update_clients_query keys))%nat
      then Raise ProgrammingError
      else
        match last params VNull with
        | VText _ => Raise (OtherError "text compared with the rowid: not modelled")
        | VNull => Ok (db, None)
        | VInt where_id =>
            result_bind
              (update_rows (combine (keys ++ ["updated_at"]) params) where_id
                 (clients db))
              (fun cs => Ok (mkDB cs (types db) (clients_seq db) (types_seq db),
                             None))
        end
  end.

(** ** The environment of thumbnail generation *)

(** What a path names: a regular file, or a directory with what [os.listdir]
    gives for it (its entries, or an error such as PermissionError). *)
Inductive node : Type :=
| File
| Dir (listing : result (list string)).

Record OS : Type := mkOS {
  image : Type;
  lookup : string -> option node;                (* the file system *)
  path_join : string -> string -> string;        (* os.path.join *)
  hash : string -> Z;                            (* hash(file) *)
  cache_path : string -> string;                 (* str(config.cache_dir / name) *)
  image_open : string -> result image;           (* Image.open *)
  image_convert : image -> result image;         (* img.convert('RGB') *)
  image_resize : image -> result image;          (* img.resize((120, 120), LANCZOS) *)
  image_save : image -> string -> result unit    (* img.save(path, 'JPEG', quality=85) *)
}.

(** [os.path.exists] *)
Definition path_exists (os : OS) (path : string) : bool :=
  match lookup os path with
  | Some _ => true
  | None => false
  end.

(** [os.path.isdir]; the source never calls it, it says what "exists as a
    directory" means. *)
Definition is_dir (os : OS) (path : string) : bool :=
  match lookup os path with
  | Some (Dir _) => true
  | _ => false
  end.

(** [os.listdir] *)
Definition listdir (os : OS) (path : string) : result (list string) :=
  match lookup os path with
  | Some (Dir listing) => listing
  | Some File => Raise (OSError "NotADirectoryError")
  | None => Raise (OSError "FileNotFoundError")
  end.

(** [Config.theme_color] *)
Definition theme_color : string := "#A8E6CF".

(** ** ClientManager *)

Local Open Scope repo_scope.

Definition image_extensions : list string :=
  [".jpg"; ".jpeg"; ".png"; ".bmp"; ".gif"].

(** [any(file.lower().endswith(ext) for ext in image_extensions)] *)
Definition is_image_file (file : string) : bool :=
  existsb (fun ext => endswith (lower file) ext) image_extensions.

(** The body of the [if] inside the loop of [_generate_avatar], up to its
    [return str(avatar_path)]. *)
Definition make_avatar (os : OS) (folder_path client_name file : string)
  : result string :=
  let image_path := path_join os folder_path file in
  let avatar_path :=
    cache_path os ("avatar_" ++ client_name ++ "_" ++ str_of_int (hash os file)
                   ++ ".jpg") in
  result_bind (image_open os image_path) (fun img =>
  result_bind (image_convert os img) (fun img =>
  result_bind (image_resize os img) (fun img =>
  result_bind (image_save os img avatar_path) (fun _ =>
  Ok avatar_path)))).

(** The [try] block of [_generate_avatar]: [Some path] when the loop returns
    from the first image file, [None] when the loop ends without one. *)
Definition avatar_try (os : OS) (folder_path client_name : string)
  : result (option string) :=
  result_bind (listdir os folder_path) (fun files =>
  match find is_image_file files with
  | Some file =>
      result_bind (make_avatar os folder_path client_name file)
                  (fun p => Ok (Some p))
  | None => Ok None
  end).

Definition _generate_avatar (os : OS) (folder_path client_name : string)
  : result string :=
  match try_except (avatar_try os folder_path client_name) (Ok None) with
  | Ok (Some avatar_path) => Ok avatar_path
  | Ok None => Ok ""
  | Raise e => Raise e
  end.

Definition _get_or_create_type (now : string) (type_name : string) : M Z :=
  result <- execute_query (sql_select_type_id type_name) ;;
  match result with
  | id :: _ => ret id
  | [] => execute_query (sql_insert_type type_name theme_color now)
  end.

Definition _update_type_count (type_id : Z) : M unit :=
  execute_query (sql_update_type_count type_id type_id) ;;; ret tt.

(** [now_type] is the clock reading taken inside [_get_or_create_type], [now]
    the one taken by [add_client] itself. *)
Definition add_client (os : OS) (now_type now : string)
    (name folder_path type_name : string) (date : option string)
    (phone email notes : string) : M Z :=
  if negb (path_exists os folder_path) then
    raise (ValueError ("文件夹不存在: " ++ folder_path))
  else
    type_id <- _get_or_create_type now_type type_name ;;
    avatar_path <- lift (_generate_avatar os folder_path name) ;;
    client_id <- execute_query
                   (sql_insert_client name folder_path type_id date phone email
                      notes avatar_path now now) ;;
    _update_type_count type_id ;;;
    ret client_id.

Definition get_all_clients : M (list joined) :=
  execute_query sql_select_all_clients.

Definition search_clients (keyword : string) : M (list joined) :=
  let search_term := "%" ++ keyword ++ "%" in
  execute_query (sql_search_clients search_term search_term search_term search_term).

(** [kwargs] lists the keyword arguments in the order of [kwargs.items()]. *)
Definition update_client (now : string) (client_id : Z)
    (kwargs : list (string * value)) : M unit :=
  let keys := map fst kwargs in          (* set_clause: one "{key} = ?" each *)
  let params := map snd kwargs in
  let params := (params ++ [VInt client_id])%list in
  let params := (params ++ [VText now])%list in
  let params := (params ++ [VInt client_id])%list in
  execute_query (sql_update_clients keys params) ;;; ret tt.

Definition delete_client (client_id : Z) : M unit :=
  execute_query (sql_delete_client client_id) ;;; ret tt.

Definition get_types : M (list type_row) :=
  execute_query sql_select_types.

(** ** ClientManager: lookup, colors and statistics *)

(** [SELECT c.*, t.name as type_name, t.color as type_color FROM clients c
    LEFT JOIN types t ON c.type_id = t.id WHERE c.id = ?] *)
Definition sql_select_client_by_id (client_id : Z) (db : DB)
  : result (DB * list joined) :=
  Ok (db, filter (fun r => c_id (j_client r) =? client_id) (left_join db)).

(** [return result[0] if result else None] *)
Definition get_client_by_id (client_id : Z) : M (option joined) :=
  result <- execute_query (sql_select_client_by_id client_id) ;;
  ret (match result with
       | r :: _ => Some r
       | [] => None
       end).

Definition set_color (color : string) (t : type_row) : type_row :=
  mkType (t_id t) (t_name t) (Some color) (t_created_at t) (t_client_count t).

(** [UPDATE types SET color = ? WHERE id = ?] *)
Definition sql_update_type_color (color : string) (type_id : Z) (db : DB)
  : result (DB * option Z) :=
  Ok (mkDB (clients db)
           (map (fun t => if t_id t =? type_id then set_color color t else t)
                (types db))
           (clients_seq db) (types_seq db),
      None).

Definition update_type_color (type_id : Z) (color : string) : M unit :=
  execute_query (sql_update_type_color color type_id) ;;; ret tt.

(** [SELECT COUNT( * ) FROM clients]: one row with one column. *)
Definition sql_count_clients (db : DB) : result (DB * list (list Z)) :=
  Ok (db, [[Z.of_nat (List.length (clients db))]]).

(** [SELECT name, client_count FROM types ORDER BY client_count DESC] *)
Definition sql_type_distribution (db : DB) : result (DB * list (string * Z)) :=
  Ok (db, map (fun t => (t_name t, t_client_count t))
              (order_by by_count_desc (types db))).

(** [ORDER BY created_at DESC] *)
Definition by_created_desc (a b : client) : bool :=
  match sql_compare (c_created_at a) (c_created_at b) with
  | Lt => false
  | _ => true
  end.

(** [SELECT name, created_at FROM clients ORDER BY created_at DESC LIMIT 5] *)
Definition sql_recent_clients (db : DB)
  : result (DB * list (string * option string)) :=
  Ok (db, map (fun c => (c_name c, c_created_at c))
              (firstn 5 (order_by by_created_desc (clients db)))).

(** The dictionary [get_stats] returns. *)
Record stats : Type := mkStats {
  total_clients : Z;
  type_distribution : list (string * Z);
  recent_clients : list (string * option string)
}.

(** [t[i]] on a sequence: IndexError when out of range. *)
Definition index {A} (t : list A) (i : nat) : result A :=
  match nth_error t i with
  | Some x => Ok x
  | None => Raise (OtherError "IndexError")
  end.

Definition get_stats : M stats :=
  counted <- execute_query sql_count_clients ;;
  total <- lift (result_bind (index counted 0) (fun row => index row 0)) ;;
  distribution <- execute_query sql_type_distribution ;;
  recent <- execute_query sql_recent_clients ;;
  ret (mkStats total distribution recent).

(** ** Card and the main window *)

(** The extensions [Card._count_photos] counts. *)
Definition photo_extensions : list string := [".jpg"; ".jpeg"; ".png"; ".bmp"].

(** [f.lower().endswith(('.jpg', '.jpeg', '.png', '.bmp'))] *)
Definition is_photo_file (f : string) : bool :=
  existsb (fun ext => endswith (lower f) ext) photo_extensions.

(** [Card._count_photos], given the text under ['folder_path'] of the card's
    [client_data]. *)
Definition _count_photos (os : OS) (folder_path : string) : result nat :=
  if path_exists os folder_path then
    try_except
      (result_bind (listdir os folder_path) (fun files =>
         Ok (List.length (filter is_photo_file files))))
      (Ok 0%nat)
  else Ok 0%nat.

Definition text_value (s : option string) : value :=
  match s with
  | Some x => VText x
  | None => VNull
  end.

Definition int_value (n : option Z) : value :=
  match n with
  | Some k => VInt k
  | None => VNull
  end.

(** The tuple sqlite3 returns for a row of [SELECT c.*, t.name as type_name,
    t.color as type_color]: the eleven columns of [clients] in the order of
    CREATE TABLE, then the two columns of [types]. *)
Definition row_tuple (r : joined) : list value :=
  let c := j_client r in
  [VInt (c_id c); VText (c_name c); VText (c_folder_path c);
   int_value (c_type_id c); text_value (c_date c); text_value (c_phone c);
   text_value (c_email c); text_value (c_notes c);
   text_value (c_avatar_path c); text_value (c_created_at c);
   text_value (c_updated_at c); text_value (type_name r);
   text_value (type_color r)].

(** A Python dict with text keys, in insertion order. *)
Definition dict (V : Type) : Type := list (string * V).

(** [d.get(key)]: [None] when the key is absent. *)
Fixpoint dict_get {V} (d : dict V) (key : string) : option V :=
  match d with
  | [] => None
  | (k, v) :: d' => if String.eqb k key then Some v else dict_get d' key
  end.

(** [d[key] = value]: replaces the value of a present key in place, appends
    an absent one. *)
Fixpoint dict_set {V} (d : dict V) (key : string) (v : V) : dict V :=
  match d with
  | [] => [(key, v)]
  | (k, w) :: d' =>
      if String.eqb k key then (k, v) :: d' else (k, w) :: dict_set d' key v
  end.

(** The dictionary [refresh_client_grid] builds from one row (the comment in
    the source: the database row converted to a dictionary). *)
Definition client_dict (client_data : list value) : result (dict value) :=
  result_bind (index client_data 0) (fun v_id =>
  result_bind (index client_data 1) (fun v_name =>
  result_bind (index client_data 2) (fun v_folder_path =>
  result_bind (index client_data 3) (fun v_type_id =>
  result_bind (index client_data 4) (fun v_date =>
  result_bind (index client_data 5) (fun v_phone =>
  result_bind (index client_data 6) (fun v_email =>
  result_bind (index client_data 7) (fun v_notes =>
  result_bind (index client_data 8) (fun v_avatar_path =>
  result_bind (index client_data 10) (fun v_type_name =>
  result_bind (index client_data 11) (fun v_type_color =>
  Ok [("id", v_id); ("name", v_name); ("folder_path", v_folder_path);
      ("type_id", v_type_id); ("date", v_date); ("phone", v_phone);
      ("email", v_email); ("notes", v_notes); ("avatar_path", v_avatar_path);
      ("type_name", v_type_name); ("type_color", v_type_color)]))))))))))).

(** The cell [refresh_client_grid] gives the i-th card:
    [row = i // 4], [col = i % 4]. *)
Definition grid_cell (i : nat) : nat * nat := ((i / 4)%nat, (i mod 4)%nat).

(** Tk, as far as the handlers depend on it: whether it takes a text for a
    color. A widget option that is no color makes Tk raise TclError. *)
Record Tk : Type := mkTk {
  valid_color : string -> bool
}.

(** [Card(parent, client_data, on_click, on_context_menu)]. The first widget
    [setup_ui] makes is [tk.Frame(self, bg=self.client_data.get('type_color',
    '#CCCCCC'), height=4)]: tkinter leaves out an option that is [None], Tk
    raises TclError for a text that is no color. Everything else the
    constructor does uses constant options or is guarded ([_count_photos],
    the avatar image). *)
Definition Card (tk : Tk) (client_data : dict value) : result unit :=
  let bg := match dict_get client_data "type_color" with
            | Some v => v
            | None => VText "#CCCCCC"
            end in
  match bg with
  | VNull => Ok tt
  | VText color =>
      if valid_color tk color then Ok tt else Raise (OtherError "TclError")
  | VInt n =>
      if valid_color tk (str_of_int n) then Ok tt
      else Raise (OtherError "TclError")
  end.

(** The loop of [refresh_client_grid]: a dictionary and a card per row. *)
Fixpoint make_cards (tk : Tk) (clients : list joined) : result unit :=
  match clients with
  | [] => Ok tt
  | client_data :: rest =>
      result_bind (client_dict (row_tuple client_data)) (fun d =>
      result_bind (Card tk d) (fun _ =>
      make_cards tk rest))
  end.

(** [refresh_client_grid(clients=None)]: fetches [get_all_clients] when it is
    given no rows, then makes the cards. *)
Definition refresh_client_grid (tk : Tk) (clients : option (list joined))
  : M unit :=
  rows <- match clients with
          | None => get_all_clients
          | Some rows => ret rows
          end ;;
  lift (make_cards tk rows).

(** [refresh_type_list]: one line [f"{name} ({count})"] per category, in the
    order of [get_types]; the result is the content of the list box. *)
Definition refresh_type_list : M (list string) :=
  types <- get_types ;;
  ret (map (fun t => t_name t ++ " (" ++ str_of_int (t_client_count t) ++ ")")
           types).

(** ** The add-client dialog: [confirm_add] *)

Inductive message : Type :=
| NameRequired                (* showerror: 请输入客户姓名 *)
| FolderInvalid               (* showerror: 请选择有效的文件夹路径 *)
| TypeRequired                (* showerror: 请输入拍摄类型 *)
| Declined                    (* the user answered no to askyesno *)
| AddFailed (e : exn)         (* showerror: 添加失败: str(e) *)
| Added (name : string).      (* showinfo: 客户 name 添加成功！ *)

(** The four entries hold the raw texts; [askyesno] is the user's answer to
    the new-type confirmation, should it be asked. Inside the [try], after
    [add_client], come the two refreshes and the success message: an
    exception of a refresh ends in the failure message, with the client
    already in the store. *)
Definition confirm_add (os : OS) (tk : Tk) (now_type now : string)
    (name_entry folder_path_var type_entry date_entry : string)
    (askyesno : bool) (db : DB) : DB * message :=
  let name := strip name_entry in
  let folder_path := strip folder_path_var in
  let type_name := strip type_entry in
  let date := strip date_entry in
  if String.eqb name "" then (db, NameRequired)
  else if String.eqb folder_path "" || negb (path_exists os folder_path) then
    (db, FolderInvalid)
  else if String.eqb type_name "" then (db, TypeRequired)
  else
    match get_types db with
    | (db1, Raise e) => (db1, AddFailed e)
    | (db1, Ok types) =>
        let existing_types := map t_name types in
        if negb (existsb (String.eqb type_name) existing_types)
           && negb askyesno
        then (db1, Declined)
        else
          match (add_client os now_type now name folder_path type_name
                   (Some date) "" "" "" ;;;
                 refresh_type_list ;;;
                 refresh_client_grid tk None) db1 with
          | (db2, Ok _) => (db2, Added name)
          | (db2, Raise e) => (db2, AddFailed e)
          end
    end.

Module App.

(** [on_search]: a search and a grid of its rows for a box that is not blank,
    the grid of all clients otherwise. *)
Definition on_search (tk : Tk) (search_var : string) : M unit :=
  let keyword := strip search_var in
  if negb (String.eqb keyword "") then
    clients <- search_clients keyword ;;
    refresh_client_grid tk (Some clients)
  else refresh_client_grid tk None.

Inductive folder_action : Type :=
| Nothing                          (* no row, or an empty folder path *)
| Opened (folder_path : string)    (* os.startfile succeeded *)
| WarnMissing (folder_path : string)   (* showwarning: 文件夹不存在 *)
| OpenFailed (e : exn).            (* showerror: 无法打开文件夹 *)

(** [open_client_folder]; [startfile] is [os.startfile]. The lookup is made
    before the [try], so an exception of it would propagate. *)
Definition open_client_folder (os : OS) (startfile : string -> result unit)
    (client_id : Z) : M folder_action :=
  client <- get_client_by_id client_id ;;
  match client with
  | None => ret Nothing
  | Some client =>
      let folder_path := c_folder_path (j_client client) in
      if String.eqb folder_path "" then ret Nothing
      else if path_exists os folder_path then
        match startfile folder_path with
        | Ok _ => ret (Opened folder_path)
        | Raise e => ret (OpenFailed e)
        end
      else ret (WarnMissing folder_path)
  end.

Inductive delete_outcome : Type :=
| NotFound                 (* no such client: returns at once *)
| Kept                     (* the user answered no *)
| Deleted                  (* showinfo: 客户已删除 *)
| DeleteFailed (e : exn).  (* showerror: 删除失败 *)

(** [PhotographerClientManager.delete_client]; [askyesno] is the user's
    answer to the confirmation. The lookup is made before the [try]; inside
    it, after the delete, come the two refreshes and the success message: an
    exception of a refresh ends in the failure message, with the client
    already gone. *)
Definition delete_client (tk : Tk) (client_id : Z) (askyesno : bool)
  : M delete_outcome :=
  client <- get_client_by_id client_id ;;
  match client with
  | None => ret NotFound
  | Some _ =>
      if askyesno then
        fun db =>
          match (delete_client client_id ;;;
                 refresh_type_list ;;;
                 refresh_client_grid tk None) db with
          | (db', Ok _) => (db', Ok Deleted)
          | (db', Raise e) => (db', Ok (DeleteFailed e))
          end
      else ret Kept
  end.

End App.

(** ** Config *)

Module Config.

(** A JSON document, as [json.load] returns it and [json.dump] writes it. *)
#[warnings="-register-all"] Inductive json : Type :=
| JNull
| JBool (b : bool)
| JNum (n : Z)
| JStr (s : string)
| JArr (items : list json)
| JObj (members : list (string * json)).

(** The configuration file: absent, present but failing to open or parse, or
    holding a document. *)
Inductive file_state : Type :=
| Missing
| Unreadable
| Holds (content : json).

(** [self.config] and the file behind it. *)
Record state : Type := mkState {
  config : json;
  file : file_state
}.

(** [default_config]; [backup_path] is [str(app_data_dir / "backups")]. *)
Definition default_config (backup_path : string) : json :=
  JObj [("nas_path", JStr ""); ("card_size", JStr "medium");
        ("sort_by", JStr "date"); ("view_mode", JStr "grid");
        ("auto_backup", JBool true); ("backup_path", JStr backup_path);
        ("last_opened", JNull)].

Definition load_config (backup_path : string) (f : file_state) : json :=
  match f with
  | Holds content => content
  | Unreadable => default_config backup_path
  | Missing => default_config backup_path
  end.

(** [save_config]; [writable] says whether the file can be opened for
    writing. *)
Definition save_config (writable : bool) (st : state) : state * result unit :=
  if writable then (mkState (config st) (Holds (config st)), Ok tt)
  else (st, Raise (OSError "PermissionError")).

(** [get(key, default)]: [self.config.get(key, default)]; only an object has
    a [get]. *)
Definition get (key : string) (default : json) (st : state) : result json :=
  match config st with
  | JObj members =>
      match dict_get members key with
      | Some v => Ok v
      | None => Ok default
      end
  | _ => Raise (OtherError "AttributeError")
  end.

(** [set(key, value)]: [self.config[key] = value], then [save_config]. *)
Definition set (writable : bool) (key : string) (v : json) (st : state)
  : state * result unit :=
  match config st with
  | JObj members =>
      save_config writable (mkState (JObj (dict_set members key v)) (file st))
  | _ => (st, Raise (OtherError "TypeError"))
  end.

End Config.

(** ** Vocabulary of the properties *)

(** [WHERE name = ?] on [types]. *)
Definition name_is (type_name : string) (t : type_row) : bool :=
  String.eqb (t_name t) type_name.

(** Equality of category references is decidable. *)
Definition reference_eq_dec (a b : option Z) : {a = b} + {a <> b}.
Proof. decide equality. apply Z.eq_dec. Defined.

(** The number of client rows whose category reference equals [type_id]:
    the occurrences of [Some type_id] in the [type_id] column. *)
Definition references (type_id : Z) (cs : list client) : nat :=
  count_occ reference_eq_dec (map c_type_id cs) (Some type_id).

(** The effect of [_update_type_count type_id] on one row of [types], given
    the clients table. *)
Definition recount (type_id : Z) (cs : list client) (t : type_row) : type_row :=
  if t_id t =? type_id
  then set_client_count (count_clients_of_type type_id cs) t
  else t.

(** The row [add_client] inserts. *)
Definition inserted_client (db1 : DB) (name folder_path : string) (type_id : Z)
    (date : option string) (phone email notes avatar_path now : string) : client :=
  mkClient (next_rowid (clients_seq db1) (map c_id (clients db1)))
    name folder_path (Some type_id) date (Some phone) (Some email) (Some notes)
    (Some avatar_path) (Some now) (Some now).


(** The rows are in the order the claim on listings asks for: most recent
    date first, equal dates by name. *)
Definition ordered_by_date_then_name (rows : list joined) : Prop :=
  Sorted (fun a b => by_date_desc_name a b = true) rows.

Fixpoint sortedb {A} (before : A -> A -> bool) (l : list A) : bool :=
  match l with
  | [] => true
  | x :: l' =>
      match l' with
      | [] => true
      | y :: _ => before x y && sortedb before l'
      end
  end.

(** Primary keys are unique in both tables, and so are category names (the
    PRIMARY KEY and UNIQUE constraints of the schema). *)
Definition keys_unique (db : DB) : Prop :=
  NoDup (map c_id (clients db))
  /\ NoDup (map t_id (types db))
  /\ NoDup (map t_name (types db)).

(** Every category stores the number of clients that reference it. *)
Definition counts_accurate (db : DB) : Prop :=
  forall t, In t (types db) ->
    t_client_count t = count_clients_of_type (t_id t) (clients db).

(** Every client references a category that exists. *)
Definition types_resolved (db : DB) : Prop :=
  forall c, In c (clients db) ->
    exists t, In t (types db) /\ c_type_id c = Some (t_id t).

(** The effect of [update_type_color type_id color] on one row of [types]. *)
Definition recolor (type_id : Z) (color : string) (t : type_row) : type_row :=
  if t_id t =? type_id then set_color color t else t.

(** The sum of a list of integers. *)
Definition sumZ (l : list Z) : Z := fold_right Z.add 0 l.

(** The rows the LEFT JOIN gives for one client. *)
Definition join_rows (ts : list type_row) (c : client) : list joined :=
  match filter (fun t => match c_type_id c with
                         | Some k => k =? t_id t
                         | None => false
                         end) ts with
  | [] => [mkJoined c None None]
  | ts' => map (fun t => mkJoined c (Some (t_name t)) (t_color t)) ts'
  end.

(** ** Example environment and stores *)

(** A file system with Mary's folder (a text file and a photo), Tom's folder
    (no photo) and nothing else; the photo decodes, every save succeeds. *)
Definition os_demo : OS :=
  mkOS string
    (fun path =>
       if String.eqb path "/nas/shoots/mary-2024"
       then Some (Dir (Ok ["notes.txt"; "IMG_0001.JPG"]))
       else if String.eqb path "/nas/shoots/tom-2024"
       then Some (Dir (Ok ["readme.txt"]))
       else if String.eqb path "/nas/shoots/mary-2024/IMG_0001.JPG"
       then Some File
       else None)
    (fun folder file => folder ++ "/" ++ file)
    (fun _ => 42)
    (fun name => "/cache/" ++ name)
    (fun path =>
       if String.eqb path "/nas/shoots/mary-2024/IMG_0001.JPG"
       then Ok "pixels"
       else Raise (OSError "cannot identify image file"))
    (fun img => Ok img)
    (fun img => Ok img)
    (fun _ _ => Ok tt).

(** The same file system with a photo that does not decode. *)
Definition os_corrupt : OS :=
  mkOS string (lookup os_demo) (path_join os_demo) (hash os_demo)
    (cache_path os_demo)
    (fun _ => Raise (OSError "cannot identify image file"))
    (fun img => Ok img) (fun img => Ok img) (fun _ _ => Ok tt).

Definition db_empty : DB := mkDB [] [] 0 0.

(** Mary and Tom, both weddings. *)
Definition db_mary_tom : DB :=
  mkDB [mkClient 1 "Mary" "/nas/shoots/mary-2024" (Some 1) (Some "2024-03-20")
          (Some "") (Some "") (Some "") (Some "/cache/avatar_Mary_42.jpg")
          (Some "2024-03-20 09:00:00") (Some "2024-03-20 09:00:00");
        mkClient 2 "Tom" "/nas/shoots/tom-2024" (Some 1) (Some "2024-04-01")
          (Some "") (Some "") (Some "") (Some "")
          (Some "2024-04-01 09:00:00") (Some "2024-04-01 09:00:00")]
       [mkType 1 "Wedding" (Some theme_color) (Some "2024-03-20 09:00:00") 2]
       2 1.

(** A store whose only category still counts five clients after all of them
    were deleted. *)
Definition db_stale : DB :=
  mkDB [] [mkType 1 "Wedding" (Some theme_color) (Some "2024-03-20 09:00:00") 5]
       5 1.

(** [db_stale] after Mary was added to it. *)
Definition db_stale_added : DB :=
  mkDB [mkClient 6 "Mary" "/nas/shoots/mary-2024" (Some 1) (Some "2024-03-20")
          (Some "") (Some "") (Some "") (Some "/cache/avatar_Mary_42.jpg")
          (Some "2024-06-01 10:00:01") (Some "2024-06-01 10:00:01")]
       [mkType 1 "Wedding" (Some theme_color) (Some "2024-03-20 09:00:00") 1]
       6 1.

(** Two categories, the second with a count left over from deleted clients:
    Mary and Tom are weddings, Ann is the only portrait, yet Portrait still
    counts seven. *)
Definition db_two_stale : DB :=
  mkDB [mkClient 1 "Mary" "/nas/shoots/mary-2024" (Some 1) (Some "2024-03-20")
          (Some "") (Some "") (Some "") (Some "/cache/avatar_Mary_42.jpg")
          (Some "2024-03-20 09:00:00") (Some "2024-03-20 09:00:00");
        mkClient 2 "Tom" "/nas/shoots/tom-2024" (Some 1) (Some "2024-04-01")
          (Some "") (Some "") (Some "") (Some "")
          (Some "2024-04-01 09:00:00") (Some "2024-04-01 09:00:00");
        mkClient 3 "Ann" "/nas/shoots/tom-2024" (Some 2) (Some "2024-05-30")
          (Some "") (Some "") (Some "") (Some "")
          (Some "2024-05-30 09:00:00") (Some "2024-05-30 09:00:00")]
       [mkType 1 "Wedding" (Some theme_color) (Some "2024-03-20 09:00:00") 2;
        mkType 2 "Portrait" (Some theme_color) (Some "2024-05-30 09:00:00") 7]
       9 2.

(** [db_two_stale] after Bob, a second portrait client, was added. *)
Definition db_two_stale_added : DB :=
  mkDB (clients db_two_stale ++
          [mkClient 10 "Bob" "/nas/shoots/tom-2024" (Some 2) (Some "2024-06-01")
             (Some "") (Some "") (Some "") (Some "")
             (Some "2024-06-01 10:00:01") (Some "2024-06-01 10:00:01")])
       [mkType 1 "Wedding" (Some theme_color) (Some "2024-03-20 09:00:00") 2;
        mkType 2 "Portrait" (Some theme_color) (Some "2024-05-30 09:00:00") 2]
       10 2.

(** Three clients shot on the same day, added in the order Bea, Cleo, Abe. *)
Definition db_ties : DB :=
  mkDB [mkClient 1 "Bea" "/nas/shoots/bea" (Some 1) (Some "2024-05-01")
          (Some "") (Some "") (Some "") (Some "") (Some "2024-05-02 09:00:00")
          (Some "2024-05-02 09:00:00");
        mkClient 2 "Cleo" "/nas/shoots/cleo" (Some 1) (Some "2024-05-01")
          (Some "") (Some "") (Some "") (Some "") (Some "2024-05-02 09:01:00")
          (Some "2024-05-02 09:01:00");
        mkClient 3 "Abe" "/nas/shoots/abe" (Some 1) (Some "2024-05-01")
          (Some "") (Some "") (Some "") (Some "") (Some "2024-05-02 09:02:00")
          (Some "2024-05-02 09:02:00")]
       [mkType 1 "Wedding" (Some theme_color) (Some "2024-05-02 09:00:00") 3]
       3 1.



(** A Tk that takes the hexadecimal color specifications and the color name
    red. *)
Definition tk_demo : Tk :=
  mkTk (fun color => String.prefix "#" color || String.eqb color "red").

(** Mary's row and the wedding category of [db_mary_tom]. *)
Definition client_mary : client :=
  mkClient 1 "Mary" "/nas/shoots/mary-2024" (Some 1) (Some "2024-03-20")
    (Some "") (Some "") (Some "") (Some "/cache/avatar_Mary_42.jpg")
    (Some "2024-03-20 09:00:00") (Some "2024-03-20 09:00:00").

Definition type_wedding : type_row :=
  mkType 1 "Wedding" (Some theme_color) (Some "2024-03-20 09:00:00") 2.

(** [db_mary_tom] after Ann, a portrait client, was added with Tom's folder. *)
Definition db_mary_tom_ann : DB :=
  Eval vm_compute in
    fst (add_client os_demo "2024-06-01 10:00:00" "2024-06-01 10:00:01" "Ann"
           "/nas/shoots/tom-2024" "Portrait" (Some "2024-05-30") "555" "" ""
           db_mary_tom).

(** An [os.startfile] that succeeds. *)
Definition startfile_ok (path : string) : result unit := Ok tt.

(** The default configuration with an empty file behind it. *)
Definition config_demo : list (string * Config.json) :=
  [("nas_path", Config.JStr ""); ("card_size", Config.JStr "medium")].

(** * Properties *)

(** ** Auxiliary facts about lists and the monad *)

Lemma filter_all {A} (f : A -> bool) (l : list A) :
  (forall x, In x l -> f x = true) -> filter f l = l.
Proof.
  induction l as [|x l IH]; intros H; simpl; [reflexivity|].
  rewrite (H x (or_introl eq_refl)), IH; [reflexivity|].
  intros y Hy. apply H. now right.
Qed.

Lemma filter_none {A} (f : A -> bool) (l : list A) :
  filter f l = [] -> forall x, In x l -> f x = false.
Proof.
  induction l as [|y l IH]; simpl; intros H x Hx; [contradiction|].
  destruct (f y) eqn:Hy; [discriminate|].
  destruct Hx as [->|Hx]; auto.
Qed.

Lemma existsb_filter_nil {A} (f : A -> bool) (l : list A) :
  filter f l = [] -> existsb f l = false.
Proof.
  induction l as [|y l IH]; simpl; intros H; [reflexivity|].
  destruct (f y); [discriminate|]. now apply IH.
Qed.

Lemma db_eta (db : DB) :
  mkDB (clients db) (types db) (clients_seq db) (types_seq db) = db.
Proof. now destruct db. Qed.

(** ** Thumbnail generation *)

Section Avatar.

Variable os : OS.
Variables folder_path client_name : string.

Lemma generate_avatar_of_try :
  _generate_avatar os folder_path client_name =
  match avatar_try os folder_path client_name with
  | Ok (Some avatar_path) => Ok avatar_path
  | Ok None | Raise _ => Ok ""
  end.
Proof.
  unfold _generate_avatar, try_except.
  now destruct (avatar_try os folder_path client_name) as [[p|]|e].
Qed.

Lemma generate_avatar_returns :
  exists avatar_path, _generate_avatar os folder_path client_name = Ok avatar_path.
Proof.
  rewrite generate_avatar_of_try.
  destruct (avatar_try os folder_path client_name) as [[p|]|e]; eauto.
Qed.

Lemma find_no_image (files : list string) :
  (forall file, In file files -> is_image_file file = false) ->
  find is_image_file files = None.
Proof.
  induction files as [|f files IH]; intros H; simpl; [reflexivity|].
  rewrite (H f (or_introl eq_refl)). apply IH. intros g Hg. apply H. now right.
Qed.

Lemma make_avatar_open_fails (file : string) (e : exn) :
  image_open os (path_join os folder_path file) = Raise e ->
  make_avatar os folder_path client_name file = Raise e.
Proof. unfold make_avatar. now intros ->. Qed.

Lemma make_avatar_save_fails (file : string) (e : exn) (i1 i2 i3 : image os) :
  image_open os (path_join os folder_path file) = Ok i1 ->
  image_convert os i1 = Ok i2 ->
  image_resize os i2 = Ok i3 ->
  (forall path, image_save os i3 path = Raise e) ->
  make_avatar os folder_path client_name file = Raise e.
Proof.
  unfold make_avatar. intros H1 H2 H3 H.
  rewrite H1; simpl. rewrite H2; simpl. rewrite H3; simpl. now rewrite H.
Qed.

(** C8. [_generate_avatar] returns for every folder path and client name and
    never raises: a missing folder, any error of [os.listdir], a listing with
    no image file, and any failure while opening, converting, resizing or
    saving the first image file all give the empty string. *)
Theorem generate_avatar_never_raises :
  (exists avatar_path,
      _generate_avatar os folder_path client_name = Ok avatar_path)
  /\ (lookup os folder_path = None ->
      _generate_avatar os folder_path client_name = Ok "")
  /\ (forall e, listdir os folder_path = Raise e ->
      _generate_avatar os folder_path client_name = Ok "")
  /\ (forall files, listdir os folder_path = Ok files ->
      (forall file, In file files -> is_image_file file = false) ->
      _generate_avatar os folder_path client_name = Ok "")
  /\ (forall files file e, listdir os folder_path = Ok files ->
      find is_image_file files = Some file ->
      make_avatar os folder_path client_name file = Raise e ->
      _generate_avatar os folder_path client_name = Ok "").
Proof.
  split; [apply generate_avatar_returns|].
  rewrite generate_avatar_of_try. unfold avatar_try.
  repeat split.
  - intros H. unfold listdir. now rewrite H.
  - now intros e ->.
  - intros files -> H. simpl. now rewrite (find_no_image files H).
  - intros files file e -> Hf Hm. simpl. now rewrite Hf, Hm.
Qed.

End Avatar.

(** ** Deleting a client *)

(** C3. [delete_client] never raises; it removes exactly the rows whose id is
    the given one, changes nothing at all when no row has that id, and leaves
    the [types] table, hence every stored [client_count] and the answer of
    [get_types], as it was. *)
Theorem delete_client_frame (client_id : Z) (db : DB) :
  exists db',
    delete_client client_id db = (db', Ok tt)
    /\ (forall c, In c (clients db') <-> In c (clients db) /\ c_id c <> client_id)
    /\ ((forall c, In c (clients db) -> c_id c <> client_id) -> db' = db)
    /\ types db' = types db
    /\ snd (get_types db') = snd (get_types db).
Proof.
  eexists. split; [reflexivity|]. simpl.
  split; [|split; [|split; reflexivity]].
  - intros c. rewrite filter_In, negb_true_iff, Z.eqb_neq. tauto.
  - intros Hnone. rewrite filter_all; [apply db_eta|].
    intros c Hc. apply negb_true_iff, Z.eqb_neq. now apply Hnone.
Qed.

(** ** Adding a client *)

Lemma recount_id type_id cs t : t_id (recount type_id cs t) = t_id t.
Proof. unfold recount. now destruct (t_id t =? type_id). Qed.

Lemma recount_name type_id cs t : t_name (recount type_id cs t) = t_name t.
Proof. unfold recount. now destruct (t_id t =? type_id). Qed.

Lemma filter_name_recount type_name type_id cs (ts : list type_row) :
  filter (name_is type_name) (map (recount type_id cs) ts)
  = map (recount type_id cs) (filter (name_is type_name) ts).
Proof.
  induction ts as [|t ts IH]; simpl; [reflexivity|].
  assert (Hn : name_is type_name (recount type_id cs t) = name_is type_name t)
    by (unfold name_is; now rewrite recount_name).
  rewrite Hn. destruct (name_is type_name t); simpl; now rewrite IH.
Qed.

Lemma get_or_create_type_found now type_name db type_id rest :
  map t_id (filter (name_is type_name) (types db)) = type_id :: rest ->
  _get_or_create_type now type_name db = (db, Ok type_id).
Proof.
  intros H. unfold _get_or_create_type, bind, execute_query, sql_select_type_id.
  simpl. fold (name_is type_name). now rewrite H.
Qed.

Lemma get_or_create_type_new now type_name db :
  filter (name_is type_name) (types db) = [] ->
  let new_id := next_rowid (types_seq db) (map t_id (types db)) in
  _get_or_create_type now type_name db =
  (mkDB (clients db)
        (types db ++ [mkType new_id type_name (Some theme_color) (Some now) 0])
        (clients_seq db) new_id,
   Ok new_id).
Proof.
  intros H. unfold _get_or_create_type, bind, execute_query, sql_select_type_id.
  simpl. fold (name_is type_name). rewrite H. simpl.
  unfold sql_insert_type. fold (name_is type_name).
  now rewrite (existsb_filter_nil _ _ H).
Qed.

(** [_get_or_create_type] always returns the id of a row named [type_name],
    leaves the clients alone, and adds at most that one row. *)
Lemma get_or_create_type_spec now type_name db :
  exists db1 type_id,
    _get_or_create_type now type_name db = (db1, Ok type_id)
    /\ clients db1 = clients db
    /\ clients_seq db1 = clients_seq db
    /\ (exists t, In t (types db1) /\ t_id t = type_id /\ t_name t = type_name).
Proof.
  destruct (filter (name_is type_name) (types db)) as [|t ts] eqn:Hf.
  - eexists _, _. split; [now apply get_or_create_type_new|].
    simpl. repeat split.
    eexists. split; [apply in_or_app; right; left; reflexivity|].
    now split.
  - exists db, (t_id t). split.
    + apply get_or_create_type_found with (rest := map t_id ts). now rewrite Hf.
    + repeat split. exists t.
      assert (Hin : In t (filter (name_is type_name) (types db)))
        by (rewrite Hf; now left).
      apply filter_In in Hin. destruct Hin as [Hin Hn].
      apply String.eqb_eq in Hn. auto.
Qed.

(** With an existing path [add_client] runs to its end: get-or-create, the
    thumbnail, the insert and the recount. *)
Lemma add_client_run os now_type now name folder_path type_name date phone
    email notes db :
  path_exists os folder_path = true ->
  exists db1 type_id avatar_path,
    _get_or_create_type now_type type_name db = (db1, Ok type_id)
    /\ _generate_avatar os folder_path name = Ok avatar_path
    /\ let c := inserted_client db1 name folder_path type_id date phone email
                  notes avatar_path now in
       add_client os now_type now name folder_path type_name date phone email
         notes db
       = (mkDB (clients db1 ++ [c])
               (map (recount type_id (clients db1 ++ [c])) (types db1))
               (c_id c) (types_seq db1),
          Ok (c_id c)).
Proof.
  intros Hex.
  destruct (get_or_create_type_spec now_type type_name db)
    as (db1 & type_id & Hg & _).
  destruct (generate_avatar_returns os folder_path name) as [avatar_path Ha].
  exists db1, type_id, avatar_path. split; [exact Hg|]. split; [exact Ha|].
  unfold add_client. rewrite Hex. simpl. unfold bind at 1. rewrite Hg.
  unfold bind at 1, lift. rewrite Ha. reflexivity.
Qed.

Lemma add_client_ok_path os now_type now name folder_path type_name date
    phone email notes db db' client_id :
  add_client os now_type now name folder_path type_name date phone email notes
    db = (db', Ok client_id) ->
  path_exists os folder_path = true.
Proof.
  unfold add_client. destruct (path_exists os folder_path); [reflexivity|].
  simpl. unfold raise. discriminate.
Qed.

Lemma count_clients_references k (cs : list client) :
  count_clients_of_type k cs = Z.of_nat (references k cs).
Proof.
  unfold count_clients_of_type, references. f_equal.
  induction cs as [|c cs IH]; [reflexivity|]. cbn [filter map count_occ].
  destruct (reference_eq_dec (c_type_id c) (Some k)) as [He|Hne].
  - rewrite He, Z.eqb_refl. cbn [List.length]. now rewrite IH.
  - destruct (c_type_id c) as [j|]; [|exact IH].
    destruct (Z.eqb_spec j k) as [->|_]; [now destruct Hne|exact IH].
Qed.

(** C2. After a successful [add_client], whatever the store was before (in
    particular whatever counts it held), the new client references a category
    row named [type_name], and every row with that id stores as
    [client_count] the number of client rows whose [type_id] is that id, no
    more and no fewer: the count is recomputed from the clients table. *)
Theorem add_client_recounts os now_type now name folder_path type_name date
    phone email notes db db' client_id :
  add_client os now_type now name folder_path type_name date phone email notes
    db = (db', Ok client_id) ->
  exists type_id,
    (exists c, In c (clients db') /\ c_id c = client_id
               /\ c_name c = name /\ c_type_id c = Some type_id)
    /\ (exists t, In t (types db') /\ t_id t = type_id /\ t_name t = type_name)
    /\ (forall t, In t (types db') -> t_id t = type_id ->
          t_client_count t = Z.of_nat (references type_id (clients db'))).
Proof.
  intros H. pose proof (add_client_ok_path _ _ _ _ _ _ _ _ _ _ _ _ _ H) as Hex.
  destruct (add_client_run os now_type now name folder_path type_name date
              phone email notes db Hex) as (db1 & type_id & avatar & Hg & _ & Hrun).
  destruct (get_or_create_type_spec now_type type_name db)
    as (db1' & type_id' & Hg' & _ & _ & t0 & Ht0 & Hid0 & Hname0).
  rewrite Hg in Hg'. injection Hg' as <- <-.
  cbv zeta in Hrun. rewrite Hrun in H. injection H as <- <-.
  exists type_id. simpl. split; [|split].
  - eexists. split; [apply in_or_app; right; left; reflexivity|]. now simpl.
  - exists (recount type_id
              (clients db1 ++
                 [inserted_client db1 name folder_path type_id date phone email
                    notes avatar now]) t0).
    split; [now apply in_map|]. now rewrite recount_id, recount_name.
  - intros t Ht Hid. apply in_map_iff in Ht. destruct Ht as (t1 & <- & _).
    rewrite recount_id in Hid. unfold recount.
    apply Z.eqb_eq in Hid. rewrite Hid.
    cbn [set_client_count t_client_count]. apply count_clients_references.
Qed.

(** C4, as the code has it. When nothing exists at [folder_path],
    [add_client] raises ValueError and the store is exactly as before: no
    category row is created and no client row is inserted. *)
Theorem add_client_missing_path os now_type now name folder_path type_name
    date phone email notes db :
  path_exists os folder_path = false ->
  add_client os now_type now name folder_path type_name date phone email notes
    db = (db, Raise (ValueError ("文件夹不存在: " ++ folder_path))).
Proof. intros H. unfold add_client. now rewrite H. Qed.

(** C9, as the code has it. [add_client] does not look at the display name:
    with an empty name and an existing path it succeeds and inserts a client
    row whose name is empty. The check for a missing name is the dialog's:
    when the entered name is blank, [confirm_add] reports the error and
    returns with the store untouched. *)
Theorem empty_name_checked_by_dialog_only os now_type now :
  (forall folder_path type_name date phone email notes db,
      path_exists os folder_path = true ->
      exists db' client_id c,
        add_client os now_type now "" folder_path type_name date phone email
          notes db = (db', Ok client_id)
        /\ In c (clients db') /\ c_id c = client_id /\ c_name c = "")
  /\ (forall tk name_entry folder_path_var type_entry date_entry askyesno db,
      strip name_entry = "" ->
      confirm_add os tk now_type now name_entry folder_path_var type_entry
        date_entry askyesno db = (db, NameRequired)).
Proof.
  split.
  - intros folder_path type_name date phone email notes db Hex.
    destruct (add_client_run os now_type now "" folder_path type_name date
                phone email notes db Hex) as (db1 & type_id & avatar & _ & _ & Hrun).
    cbv zeta in Hrun. eexists _, _, _. split; [exact Hrun|].
    simpl. split; [apply in_or_app; right; left; reflexivity|]. now split.
  - intros tk name_entry folder_path_var type_entry date_entry askyesno db Hs.
    unfold confirm_add. now rewrite Hs.
Qed.

(** The shape of the store after a successful [add_client]: one client row
    appended, and the types table recounted, with one row appended first
    exactly when no row was named [type_name]. *)
Lemma add_client_shape os now_type now name folder_path type_name date phone
    email notes db :
  path_exists os folder_path = true ->
  exists db' c type_id,
    add_client os now_type now name folder_path type_name date phone email
      notes db = (db', Ok (c_id c))
    /\ clients db' = (clients db ++ [c])%list
    /\ clients_seq db' = c_id c
    /\ c_id c = next_rowid (clients_seq db) (map c_id (clients db))
    /\ c_type_id c = Some type_id
    /\ ((exists rest,
            map t_id (filter (name_is type_name) (types db)) = type_id :: rest
            /\ types db' = map (recount type_id (clients db')) (types db))
        \/ (filter (name_is type_name) (types db) = []
            /\ types db' =
               map (recount type_id (clients db'))
                 (types db ++
                    [mkType type_id type_name (Some theme_color) (Some now_type) 0]))).
Proof.
  intros Hex.
  destruct (add_client_run os now_type now name folder_path type_name date
              phone email notes db Hex) as (db1 & type_id & avatar & Hg & _ & Hrun).
  cbv zeta in Hrun.
  destruct (filter (name_is type_name) (types db)) as [|t ts] eqn:Hf.
  - rewrite (get_or_create_type_new now_type type_name db Hf) in Hg.
    cbv zeta in Hg. injection Hg as <- <-.
    eexists _, _, _. split; [exact Hrun|]. simpl.
    repeat (split; [reflexivity|]). right. now split.
  - rewrite (get_or_create_type_found now_type type_name db (t_id t) (map t_id ts))
      in Hg by (now rewrite Hf).
    injection Hg as <- <-.
    eexists _, _, _. split; [exact Hrun|]. simpl.
    repeat (split; [reflexivity|]). left. now exists (map t_id ts).
Qed.

Lemma filter_unseen type_name (ts : list type_row) :
  (forall t, In t ts -> t_name t <> type_name) ->
  filter (name_is type_name) ts = [].
Proof.
  induction ts as [|t ts IH]; intros H; simpl; [reflexivity|].
  unfold name_is at 1.
  destruct (String.eqb_spec (t_name t) type_name) as [He|_].
  - exfalso. now apply (H t (or_introl eq_refl)).
  - apply IH. intros u Hu. apply H. now right.
Qed.

Lemma next_rowid_gt seq (ids : list Z) : seq < next_rowid seq ids.
Proof. unfold next_rowid. lia. Qed.

(** C5. Starting from a store with no category named [type_name], two
    successive [add_client] calls with that name (each with an existing path)
    both succeed, the store then holds exactly one category row of that name,
    and the two new client rows reference that row's id. *)
Theorem add_client_twice_one_category os type_name db
    now_type1 now1 name1 folder_path1 date1 phone1 email1 notes1
    now_type2 now2 name2 folder_path2 date2 phone2 email2 notes2 :
  (forall t, In t (types db) -> t_name t <> type_name) ->
  path_exists os folder_path1 = true ->
  path_exists os folder_path2 = true ->
  exists db1 id1 db2 id2 type_id t,
    add_client os now_type1 now1 name1 folder_path1 type_name date1 phone1
      email1 notes1 db = (db1, Ok id1)
    /\ add_client os now_type2 now2 name2 folder_path2 type_name date2 phone2
         email2 notes2 db1 = (db2, Ok id2)
    /\ filter (name_is type_name) (types db2) = [t]
    /\ t_id t = type_id
    /\ id1 <> id2
    /\ (exists c1, In c1 (clients db2) /\ c_id c1 = id1
                   /\ c_type_id c1 = Some type_id)
    /\ (exists c2, In c2 (clients db2) /\ c_id c2 = id2
                   /\ c_type_id c2 = Some type_id).
Proof.
  intros Hunseen Hex1 Hex2.
  destruct (add_client_shape os now_type1 now1 name1 folder_path1 type_name
              date1 phone1 email1 notes1 db Hex1)
    as (db1 & c1 & tid1 & Hadd1 & Hcs1 & Hseq1 & Hid1 & Hty1 & Hts1).
  pose proof (filter_unseen type_name (types db) Hunseen) as Hnil.
  destruct Hts1 as [(rest & Hfound & _)|[_ Hts1]];
    [rewrite Hnil in Hfound; discriminate|].
  destruct (add_client_shape os now_type2 now2 name2 folder_path2 type_name
              date2 phone2 email2 notes2 db1 Hex2)
    as (db2 & c2 & tid2 & Hadd2 & Hcs2 & Hseq2 & Hid2 & Hty2 & Hts2).
  assert (Hf1 : filter (name_is type_name) (types db1)
                = [recount tid1 (clients db1)
                     (mkType tid1 type_name (Some theme_color) (Some now_type1) 0)]).
  { rewrite Hts1, filter_name_recount, filter_app, Hnil. simpl.
    unfold name_is at 1. simpl. now rewrite String.eqb_refl. }
  destruct Hts2 as [(rest & Hfound & Hts2)|[Hnone _]];
    [|rewrite Hf1 in Hnone; discriminate].
  rewrite Hf1 in Hfound. simpl in Hfound. rewrite recount_id in Hfound.
  simpl in Hfound. injection Hfound as Htid _. subst tid2.
  eexists db1, (c_id c1), db2, (c_id c2), tid1, _.
  split; [exact Hadd1|]. split; [exact Hadd2|].
  split; [rewrite Hts2, filter_name_recount, Hf1; reflexivity|].
  split; [now rewrite !recount_id|].
  split.
  - rewrite Hid2, Hseq1. pose proof (next_rowid_gt (c_id c1) (map c_id (clients db1))).
    lia.
  - split.
    + exists c1. rewrite Hcs2, Hcs1. split; [|now split].
      apply in_or_app; left. apply in_or_app; right. now left.
    + exists c2. rewrite Hcs2. split; [|now split].
      apply in_or_app; right. now left.
Qed.

(** ** Updating a client *)

Lemma count_char_app c (a b : string) :
  count_char c (a ++ b) = (count_char c a + count_char c b)%nat.
Proof.
  induction a as [|d a IH]; simpl; [reflexivity|]. rewrite IH. lia.
Qed.

Lemma column_one_placeholder key :
  In key client_columns -> count_char "?" (key ++ " = ?") = 1%nat.
Proof.
  unfold client_columns. simpl.
  intros H. repeat (destruct H as [<-|H]; [reflexivity|]). contradiction.
Qed.

Lemma set_str_placeholders (keys : list string) :
  Forall (fun key => In key client_columns) keys ->
  count_char "?" (String.concat ", " (map (fun key => key ++ " = ?") keys))
  = List.length keys.
Proof.
  induction 1 as [|key keys Hk Hks IH]; [reflexivity|].
  destruct keys as [|key' keys].
  - cbn [map String.concat]. now rewrite (column_one_placeholder key Hk).
  - change (String.concat ", " (map (fun k => k ++ " = ?") (key :: key' :: keys)))
      with ((key ++ " = ?") ++ ", "
            ++ String.concat ", " (map (fun k => k ++ " = ?") (key' :: keys))).
    rewrite (count_char_app _ (key ++ " = ?")), (count_char_app _ ", "), IH,
      (column_one_placeholder key Hk). reflexivity.
Qed.

(** The statement text has two placeholders more than it has keys. *)
Lemma update_clients_query_placeholders (keys : list string) :
  Forall (fun key => In key client_columns) keys ->
  count_char "?" (update_clients_query keys) = (List.length keys + 2)%nat.
Proof.
  intros H. unfold update_clients_query.
  rewrite !count_char_app, (set_str_placeholders keys H). simpl. lia.
Qed.

Lemma keys_are_columns (keys : list string) :
  Forall (fun key => In key client_columns) keys ->
  forallb (fun key => existsb (String.eqb key) client_columns) keys = true.
Proof.
  intros H. apply forallb_forall. intros key Hin.
  rewrite Forall_forall in H. apply existsb_exists. exists key.
  split; [now apply H|apply String.eqb_refl].
Qed.

(** C1 (what the code does). Whatever columns are named, [update_client]
    raises and leaves the store as it was: with no field the statement text is
    malformed (OperationalError); with n >= 1 fields the statement has n + 2
    placeholders while [params] holds n + 3 values, [client_id] having been
    appended twice, so sqlite3 raises ProgrammingError before running it. *)
Theorem update_client_always_raises now client_id kwargs db :
  Forall (fun kv => In (fst kv) client_columns) kwargs ->
  update_client now client_id kwargs db =
  (db, Raise (match kwargs with
              | [] => OperationalError
              | _ :: _ => ProgrammingError
              end)).
Proof.
  intros H. destruct kwargs as [|kv kwargs]; [reflexivity|].
  assert (Hkeys : Forall (fun key => In key client_columns) (map fst (kv :: kwargs)))
    by (apply Forall_map; exact H).
  unfold update_client, bind, execute_query, sql_update_clients.
  remember (map fst (kv :: kwargs)) as keys eqn:Ek.
  destruct keys as [|key keys]; [discriminate|].
  rewrite (keys_are_columns _ Hkeys), (update_clients_query_placeholders _ Hkeys).
  rewrite !length_app, length_map.
  assert (El : List.length (key :: keys) = List.length (kv :: kwargs))
    by (rewrite Ek; apply length_map).
  rewrite El. simpl negb at 1. cbv iota.
  replace (_ =? _)%nat with false; [reflexivity|].
  symmetry. apply Nat.eqb_neq. simpl. lia.
Qed.

(** The statement itself is sound: run with the n + 2 values its text asks
    for, it sets the named fields and the timestamp of the row. *)
Example update_statement_with_matching_bindings :
  exists db',
    sql_update_clients ["phone"]
      [VText "555-0100"; VText "2024-06-01 10:00:00"; VInt 1] db_mary_tom
    = Ok (db', None)
    /\ map (fun c => (c_id c, c_phone c, c_updated_at c)) (clients db')
       = [(1, Some "555-0100", Some "2024-06-01 10:00:00");
          (2, Some "", Some "2024-04-01 09:00:00")]
    /\ types db' = types db_mary_tom.
Proof. eexists. split; [reflexivity|]. now split. Qed.

(** ** Listing and searching *)

Lemma insert_by_perm {A} (before : A -> A -> bool) x (l : list A) :
  Permutation (x :: l) (insert_by before x l).
Proof.
  induction l as [|y l IH]; simpl; [reflexivity|].
  destruct (before x y); [reflexivity|].
  rewrite perm_swap. now constructor.
Qed.

Lemma order_by_perm {A} (before : A -> A -> bool) (l : list A) :
  Permutation l (order_by before l).
Proof.
  induction l as [|x l IH]; simpl; [constructor|].
  rewrite <- insert_by_perm. now constructor.
Qed.

Section Ordering.

Context {A : Type} (before : A -> A -> bool).
Hypothesis before_total : forall a b, before a b = true \/ before b a = true.

Lemma insert_by_hd x y (l : list A) :
  before y x = true ->
  HdRel (fun a b => before a b = true) y l ->
  HdRel (fun a b => before a b = true) y (insert_by before x l).
Proof.
  intros Hyx Hl. destruct l as [|z l]; simpl; [now constructor|].
  destruct (before x z); constructor; [exact Hyx|now inversion Hl].
Qed.

Lemma insert_by_sorted x (l : list A) :
  Sorted (fun a b => before a b = true) l ->
  Sorted (fun a b => before a b = true) (insert_by before x l).
Proof.
  induction 1 as [|y l Hs IH Hh]; simpl; [repeat constructor|].
  destruct (before x y) eqn:Hxy.
  - repeat constructor; assumption.
  - constructor; [exact IH|]. apply insert_by_hd; [|exact Hh].
    destruct (before_total x y) as [H|H]; [congruence|exact H].
Qed.

Lemma order_by_sorted (l : list A) :
  Sorted (fun a b => before a b = true) (order_by before l).
Proof.
  induction l as [|x l IH]; simpl; [constructor|now apply insert_by_sorted].
Qed.

End Ordering.

Lemma sql_compare_antisym a b : sql_compare a b = CompOpp (sql_compare b a).
Proof.
  destruct a as [x|], b as [y|]; simpl; try reflexivity.
  apply String.compare_antisym.
Qed.

Lemma by_date_desc_name_total a b :
  by_date_desc_name a b = true \/ by_date_desc_name b a = true.
Proof.
  unfold by_date_desc_name.
  rewrite (sql_compare_antisym (c_date (j_client b)) (c_date (j_client a))).
  destruct (sql_compare (c_date (j_client a)) (c_date (j_client b))); simpl; auto.
  apply String.leb_total.
Qed.

Lemma by_date_desc_total a b :
  by_date_desc a b = true \/ by_date_desc b a = true.
Proof.
  unfold by_date_desc.
  rewrite (sql_compare_antisym (c_date (j_client b)) (c_date (j_client a))).
  destruct (sql_compare (c_date (j_client a)) (c_date (j_client b))); simpl; auto.
Qed.

(** [get_all_clients] returns every joined row, each with the name and color
    of its category, by date descending and then by name. *)
Lemma get_all_clients_ordered db :
  exists rows,
    get_all_clients db = (db, Ok rows)
    /\ Permutation (left_join db) rows
    /\ Sorted (fun a b => by_date_desc_name a b = true) rows.
Proof.
  eexists. split; [reflexivity|]. split.
  - apply order_by_perm.
  - apply order_by_sorted, by_date_desc_name_total.
Qed.

(** [search_clients] orders its rows by date descending, and by nothing else. *)
Lemma search_clients_ordered_by_date keyword db :
  exists rows,
    search_clients keyword db = (db, Ok rows)
    /\ Sorted (fun a b => by_date_desc a b = true) rows.
Proof.
  eexists. split; [reflexivity|]. apply order_by_sorted, by_date_desc_total.
Qed.

Lemma like_percent (s : string) : like "%" s = true.
Proof.
  induction s as [|c s IH]; [reflexivity|].
  simpl. simpl in IH. exact IH.
Qed.

Lemma like_percent_percent (s : string) : like "%%" s = true.
Proof.
  destruct s as [|c s]; [reflexivity|].
  change (like "%%" (String c s))
    with (like "%" (String c s) || like "%%" s).
  now rewrite like_percent.
Qed.

Lemma sql_or_true_l (b : option bool) : sql_or (Some true) b = Some true.
Proof. now destruct b as [[|]|]. Qed.

(** C7. On every store, [search_clients] with the empty keyword returns
    exactly the rows [get_all_clients] returns (the same rows the same number
    of times; only the order among equal dates may differ): the pattern
    is "%%", which the NOT NULL name of every row matches. *)
Theorem search_empty_keyword_returns_all (db : DB) :
  exists found all,
    search_clients "" db = (db, Ok found)
    /\ get_all_clients db = (db, Ok all)
    /\ Permutation found all
    /\ (forall r, In r found <-> In r all).
Proof.
  eexists _, _. split; [reflexivity|]. split; [reflexivity|].
  assert (P : Permutation
                (order_by by_date_desc
                   (filter (fun r =>
                      sql_where
                        (sql_or (sql_or (sql_or
                           (sql_like (Some (c_name (j_client r))) "%%")
                           (sql_like (c_phone (j_client r)) "%%"))
                           (sql_like (c_notes (j_client r)) "%%"))
                           (sql_like (type_name r) "%%")))
                      (left_join db)))
                (order_by by_date_desc_name (left_join db))).
  { rewrite filter_all.
    - rewrite <- !order_by_perm. reflexivity.
    - intros r _. simpl sql_like at 1.
      now rewrite like_percent_percent, !sql_or_true_l. }
  split; [exact P|].
  intros r. split; intros H.
  - now apply (Permutation_in r P).
  - now apply (Permutation_in r (Permutation_sym P)).
Qed.


Lemma Sorted_sortedb {A} (before : A -> A -> bool) (l : list A) :
  Sorted (fun a b => before a b = true) l -> sortedb before l = true.
Proof.
  induction 1 as [|x l Hs IH Hh]; [reflexivity|].
  destruct Hh as [|y l Hxy]; [reflexivity|].
  change (before x y && sortedb before (y :: l) = true).
  now rewrite Hxy, IH.
Qed.

(** C6 (what the code does). On three clients of the same date added as Bea,
    Cleo, Abe, [get_all_clients] lists them by name while [search_clients]
    leaves them as scanned: its ORDER BY has the date only. Neither the scan
    order nor its reverse has the ties by name. *)
Theorem search_clients_ties_not_by_name :
  exists found all,
    search_clients "e" db_ties = (db_ties, Ok found)
    /\ get_all_clients db_ties = (db_ties, Ok all)
    /\ map (fun r => c_name (j_client r)) found = ["Bea"; "Cleo"; "Abe"]
    /\ map (fun r => c_name (j_client r)) all = ["Abe"; "Bea"; "Cleo"]
    /\ ordered_by_date_then_name all
    /\ ~ ordered_by_date_then_name found
    /\ ~ ordered_by_date_then_name (rev found).
Proof.
  eexists _, _. split; [reflexivity|]. split; [reflexivity|].
  split; [reflexivity|]. split; [reflexivity|].
  split; [apply order_by_sorted, by_date_desc_name_total|].
  split; intros H; apply Sorted_sortedb in H; vm_compute in H; discriminate.
Qed.

(** ** The claims at concrete inputs *)

Lemma update_client_always_raises_witness :
  update_client "2024-06-01 10:00:00" 1 [("phone", VText "555-0100")] db_mary_tom
  = (db_mary_tom, Raise ProgrammingError).
Proof.
  apply (update_client_always_raises "2024-06-01 10:00:00" 1
           [("phone", VText "555-0100")] db_mary_tom).
  constructor; [|constructor]. simpl. do 5 right. left. reflexivity.
Defined.

Lemma add_client_recounts_witness :
  add_client os_demo "2024-06-01 10:00:00" "2024-06-01 10:00:01" "Bob"
    "/nas/shoots/tom-2024" "Portrait" (Some "2024-06-01") "" "" "" db_two_stale
  = (db_two_stale_added, Ok 10)
  /\ map (fun t => (t_name t, t_client_count t)) (types db_two_stale)
     = [("Wedding", 2); ("Portrait", 7)]
  /\ map (fun t => (t_name t, t_client_count t)) (types db_two_stale_added)
     = [("Wedding", 2); ("Portrait", 2)]
  /\ map c_type_id (clients db_two_stale_added)
     = [Some 1; Some 1; Some 2; Some 2]
  /\ exists type_id,
      (exists c, In c (clients db_two_stale_added) /\ c_id c = 10
                 /\ c_name c = "Bob" /\ c_type_id c = Some type_id)
      /\ (exists t, In t (types db_two_stale_added) /\ t_id t = type_id
                    /\ t_name t = "Portrait")
      /\ (forall t, In t (types db_two_stale_added) -> t_id t = type_id ->
            t_client_count t
            = Z.of_nat (references type_id (clients db_two_stale_added))).
Proof.
  split; [reflexivity|]. split; [reflexivity|]. split; [reflexivity|].
  split; [reflexivity|].
  apply (add_client_recounts os_demo "2024-06-01 10:00:00" "2024-06-01 10:00:01"
           "Bob" "/nas/shoots/tom-2024" "Portrait" (Some "2024-06-01") "" "" ""
           db_two_stale db_two_stale_added 10).
  reflexivity.
Defined.

(** A single category with a stale count of five and no client: after the
    add the count is one, not six. *)
Example add_client_recount_from_stale_count :
  add_client os_demo "2024-06-01 10:00:00" "2024-06-01 10:00:01" "Mary"
    "/nas/shoots/mary-2024" "Wedding" (Some "2024-03-20") "" "" "" db_stale
  = (db_stale_added, Ok 6)
  /\ map t_client_count (types db_stale) = [5]
  /\ map t_client_count (types db_stale_added) = [1].
Proof. repeat split. Qed.

Lemma delete_client_frame_witness :
  exists db',
    delete_client 1 db_mary_tom = (db', Ok tt)
    /\ (forall c, In c (clients db') <-> In c (clients db_mary_tom) /\ c_id c <> 1)
    /\ ((forall c, In c (clients db_mary_tom) -> c_id c <> 1) -> db' = db_mary_tom)
    /\ types db' = types db_mary_tom
    /\ snd (get_types db') = snd (get_types db_mary_tom).
Proof. exact (delete_client_frame 1 db_mary_tom). Defined.

(** The scenario of the specification: after Mary is deleted, [get_types]
    still reports two weddings and [get_all_clients] returns Tom alone; an id
    that no row has changes nothing. *)
Example delete_mary_scenario :
  map (fun t => (t_name t, t_client_count t))
      (types (fst (delete_client 1 db_mary_tom))) = [("Wedding", 2)]
  /\ map c_name (clients (fst (delete_client 1 db_mary_tom))) = ["Tom"]
  /\ delete_client 7 db_mary_tom = (db_mary_tom, Ok tt).
Proof. repeat split. Qed.

Lemma add_client_existing_file_counterexample :
  is_dir os_demo "/nas/shoots/mary-2024/IMG_0001.JPG" = false
  /\ exists db',
      add_client os_demo "2024-06-01 10:00:00" "2024-06-01 10:00:01" "Mary"
        "/nas/shoots/mary-2024/IMG_0001.JPG" "Wedding" (Some "2024-03-20")
        "" "" "" db_empty = (db', Ok 1)
      /\ map t_name (types db') = ["Wedding"]
      /\ map c_folder_path (clients db') = ["/nas/shoots/mary-2024/IMG_0001.JPG"].
Proof.
  split; [reflexivity|]. eexists. split; [reflexivity|]. now split.
Qed.

Lemma add_client_missing_path_witness :
  path_exists os_demo "/nas/shoots/nobody" = false
  /\ add_client os_demo "2024-06-01 10:00:00" "2024-06-01 10:00:01" "Mary"
       "/nas/shoots/nobody" "Portrait" (Some "2024-03-20") "" "" "" db_mary_tom
     = (db_mary_tom, Raise (ValueError ("文件夹不存在: " ++ "/nas/shoots/nobody"))).
Proof.
  split; [reflexivity|].
  apply (add_client_missing_path os_demo "2024-06-01 10:00:00"
           "2024-06-01 10:00:01" "Mary" "/nas/shoots/nobody" "Portrait"
           (Some "2024-03-20") "" "" "" db_mary_tom).
  reflexivity.
Defined.

Lemma add_client_twice_one_category_witness :
  exists db1 id1 db2 id2 type_id t,
    add_client os_demo "2024-06-01 10:00:00" "2024-06-01 10:00:01" "Mary"
      "/nas/shoots/mary-2024" "Wedding" (Some "2024-03-20") "" "" "" db_empty
    = (db1, Ok id1)
    /\ add_client os_demo "2024-06-01 10:05:00" "2024-06-01 10:05:01" "Tom"
         "/nas/shoots/tom-2024" "Wedding" (Some "2024-04-01") "" "" "" db1
       = (db2, Ok id2)
    /\ filter (name_is "Wedding") (types db2) = [t]
    /\ t_id t = type_id
    /\ id1 <> id2
    /\ (exists c1, In c1 (clients db2) /\ c_id c1 = id1
                   /\ c_type_id c1 = Some type_id)
    /\ (exists c2, In c2 (clients db2) /\ c_id c2 = id2
                   /\ c_type_id c2 = Some type_id).
Proof.
  apply (add_client_twice_one_category os_demo "Wedding" db_empty).
  - intros t [].
  - reflexivity.
  - reflexivity.
Defined.

Lemma generate_avatar_never_raises_witness :
  _generate_avatar os_demo "/nas/shoots/nobody" "Mary" = Ok ""
  /\ _generate_avatar os_demo "/nas/shoots/tom-2024" "Tom" = Ok ""
  /\ _generate_avatar os_corrupt "/nas/shoots/mary-2024" "Mary" = Ok "".
Proof.
  split; [|split].
  - apply (proj1 (proj2 (generate_avatar_never_raises os_demo
                           "/nas/shoots/nobody" "Mary"))).
    reflexivity.
  - apply (proj1 (proj2 (proj2 (proj2 (generate_avatar_never_raises os_demo
                                         "/nas/shoots/tom-2024" "Tom"))))
             ["readme.txt"]).
    + reflexivity.
    + intros file [<-|[]]. reflexivity.
  - apply (proj2 (proj2 (proj2 (proj2 (generate_avatar_never_raises os_corrupt
                                         "/nas/shoots/mary-2024" "Mary"))))
             ["notes.txt"; "IMG_0001.JPG"] "IMG_0001.JPG"
             (OSError "cannot identify image file")); reflexivity.
Defined.

Lemma add_client_empty_name_counterexample :
  exists db',
    add_client os_demo "2024-06-01 10:00:00" "2024-06-01 10:00:01" ""
      "/nas/shoots/mary-2024" "Wedding" (Some "2024-03-20") "" "" "" db_empty
    = (db', Ok 1)
    /\ map c_name (clients db') = [""]
    /\ map t_name (types db') = ["Wedding"].
Proof. eexists. split; [reflexivity|]. now split. Qed.

Lemma empty_name_checked_by_dialog_only_witness :
  (exists db' client_id c,
      add_client os_demo "2024-06-01 10:00:00" "2024-06-01 10:00:01" ""
        "/nas/shoots/mary-2024" "Wedding" (Some "2024-03-20") "" "" "" db_empty
      = (db', Ok client_id)
      /\ In c (clients db') /\ c_id c = client_id /\ c_name c = "")
  /\ confirm_add os_demo tk_demo "2024-06-01 10:00:00" "2024-06-01 10:00:01"
       " 　 " "/nas/shoots/mary-2024" "Wedding" "2024-03-20" true db_empty
     = (db_empty, NameRequired).
Proof.
  split.
  - apply (proj1 (empty_name_checked_by_dialog_only os_demo
                    "2024-06-01 10:00:00" "2024-06-01 10:00:01")).
    reflexivity.
  - apply (proj2 (empty_name_checked_by_dialog_only os_demo
                    "2024-06-01 10:00:00" "2024-06-01 10:00:01")).
    reflexivity.
Defined.

(** * Further properties of the repository *)

(** ** Looking a client up *)

Lemma in_left_join db r :
  In r (left_join db) -> In (j_client r) (clients db).
Proof.
  unfold left_join. rewrite in_flat_map. intros (c & Hc & Hr).
  destruct (filter _ (types db)) as [|t ts].
  - destruct Hr as [<-|[]]. exact Hc.
  - apply in_map_iff in Hr. destruct Hr as (u & <- & _). exact Hc.
Qed.

Lemma left_join_covers db c :
  In c (clients db) -> exists r, In r (left_join db) /\ j_client r = c.
Proof.
  intros Hc. unfold left_join.
  destruct (filter (fun t => match c_type_id c with
                             | Some k => k =? t_id t
                             | None => false
                             end) (types db)) as [|t ts] eqn:Hf.
  - exists (mkJoined c None None). split; [|reflexivity].
    apply in_flat_map. exists c. split; [exact Hc|]. rewrite Hf. now left.
  - exists (mkJoined c (Some (t_name t)) (t_color t)). split; [|reflexivity].
    apply in_flat_map. exists c. split; [exact Hc|]. rewrite Hf. now left.
Qed.

(** X1. [get_client_by_id] never raises and never changes the store; it
    answers [None] exactly when no client row has the id, and otherwise a row
    of a stored client with that id. *)
Theorem get_client_by_id_found_iff (client_id : Z) (db : DB) :
  exists answer,
    get_client_by_id client_id db = (db, Ok answer)
    /\ (answer = None <-> forall c, In c (clients db) -> c_id c <> client_id)
    /\ (forall row, answer = Some row ->
          In (j_client row) (clients db) /\ c_id (j_client row) = client_id).
Proof.
  unfold get_client_by_id, bind, execute_query, sql_select_client_by_id, ret.
  cbn [fst snd].
  destruct (filter (fun r => c_id (j_client r) =? client_id) (left_join db))
    as [|r rs] eqn:Hf.
  - exists None. split; [reflexivity|]. split; [|discriminate].
    split; [|reflexivity]. intros _ c Hc Hid.
    destruct (left_join_covers db c Hc) as (r & Hr & <-).
    pose proof (filter_none _ _ Hf r Hr) as Hn. cbv beta in Hn.
    apply Z.eqb_neq in Hn. contradiction.
  - exists (Some r). split; [reflexivity|].
    assert (Hin : In r (filter (fun r => c_id (j_client r) =? client_id)
                          (left_join db))) by (rewrite Hf; now left).
    apply filter_In in Hin. destruct Hin as [Hin Hid]. apply Z.eqb_eq in Hid.
    split.
    + split; [discriminate|]. intros Hnone. exfalso.
      exact (Hnone _ (in_left_join db r Hin) Hid).
    + intros row [= <-]. split; [now apply in_left_join|exact Hid].
Qed.

Lemma left_join_rows db :
  left_join db = flat_map (join_rows (types db)) (clients db).
Proof. reflexivity. Qed.

Lemma join_rows_client ts c r : In r (join_rows ts c) -> j_client r = c.
Proof.
  unfold join_rows. destruct (filter _ ts) as [|t ts'].
  - now intros [<-|[]].
  - intros H. apply in_map_iff in H. now destruct H as (u & <- & _).
Qed.

Lemma get_client_by_id_eq client_id db :
  get_client_by_id client_id db
  = (db, Ok (hd_error (filter (fun r => c_id (j_client r) =? client_id)
                         (left_join db)))).
Proof.
  unfold get_client_by_id, bind, execute_query, sql_select_client_by_id, ret.
  cbn [fst snd]. now destruct (filter _ (left_join db)).
Qed.

Lemma flat_map_filter {A B} (f : A -> list B) (p : A -> bool) (q : B -> bool)
    (l : list A) :
  (forall x y, In y (f x) -> q y = p x) ->
  flat_map f (filter p l) = filter q (flat_map f l).
Proof.
  intros H. induction l as [|x l IH]; [reflexivity|].
  cbn [filter flat_map]. rewrite filter_app, <- IH.
  destruct (p x) eqn:Hp.
  - cbn [flat_map]. f_equal. symmetry. apply filter_all.
    intros y Hy. now rewrite (H x y Hy).
  - replace (filter q (f x)) with (@nil B); [reflexivity|].
    symmetry. destruct (filter q (f x)) as [|y ys] eqn:Hf; [reflexivity|].
    assert (Hy : In y (filter q (f x))) by (rewrite Hf; now left).
    apply filter_In in Hy. destruct Hy as [Hy Hq].
    rewrite (H x y Hy) in Hq. congruence.
Qed.

(** Looking for id [j] among the rows that survive the deletion of id [i]. *)
Lemma lookup_after_delete (i j : Z) (rows : list joined) :
  filter (fun r => c_id (j_client r) =? j)
    (filter (fun r => negb (c_id (j_client r) =? i)) rows)
  = if j =? i then [] else filter (fun r => c_id (j_client r) =? j) rows.
Proof.
  induction rows as [|r rows IH]; [now destruct (j =? i)|].
  cbn [filter].
  destruct (Z.eqb_spec (c_id (j_client r)) i) as [Hi|Hi]; cbn [negb filter].
  - rewrite IH. destruct (Z.eqb_spec j i) as [_|Hji]; [reflexivity|].
    destruct (Z.eqb_spec (c_id (j_client r)) j) as [Hj|_]; [congruence|reflexivity].
  - rewrite IH. destruct (Z.eqb_spec j i) as [->|_]; [|reflexivity].
    destruct (Z.eqb_spec (c_id (j_client r)) i) as [Hj|_]; [contradiction|reflexivity].
Qed.

Lemma filter_nil_all {A} (f : A -> bool) (l : list A) :
  (forall x, In x l -> f x = false) -> filter f l = [].
Proof.
  induction l as [|x l IH]; intros H; [reflexivity|]. cbn [filter].
  rewrite (H x (or_introl eq_refl)). apply IH. intros y Hy. apply H. now right.
Qed.

(** X3. Once [delete_client] has run, [get_client_by_id] finds nothing under
    that id, and answers for every other id exactly as before. *)
Theorem delete_then_get_client (client_id : Z) (db : DB) :
  exists db',
    delete_client client_id db = (db', Ok tt)
    /\ get_client_by_id client_id db' = (db', Ok None)
    /\ (forall other, other <> client_id ->
          snd (get_client_by_id other db') = snd (get_client_by_id other db)).
Proof.
  eexists. split; [reflexivity|].
  set (db' := mkDB _ _ _ _).
  assert (Hj : left_join db'
               = filter (fun r => negb (c_id (j_client r) =? client_id))
                   (left_join db)).
  { rewrite !left_join_rows. subst db'. cbn [clients types].
    apply flat_map_filter. intros c r Hr.
    now rewrite (join_rows_client _ _ _ Hr). }
  split.
  - rewrite get_client_by_id_eq, Hj, lookup_after_delete.
    now rewrite Z.eqb_refl.
  - intros other Hne. rewrite !get_client_by_id_eq, Hj, lookup_after_delete.
    apply Z.eqb_neq in Hne. now rewrite Hne.
Qed.

(** ** What [add_client] does to the store *)

Lemma max_rowid_ge (ids : list Z) x : In x ids -> x <= max_rowid ids.
Proof.
  induction ids as [|y ids IH]; [contradiction|].
  cbn [max_rowid fold_right]. fold (max_rowid ids).
  intros [->|H]; [lia|]. specialize (IH H). lia.
Qed.

Lemma next_rowid_fresh seq (ids : list Z) x : In x ids -> x < next_rowid seq ids.
Proof. intros H. apply max_rowid_ge in H. unfold next_rowid. lia. Qed.

Lemma NoDup_snoc {A} (l : list A) x : NoDup l -> ~ In x l -> NoDup (l ++ [x]).
Proof.
  intros Hl Hx. apply (Permutation_NoDup (Permutation_cons_append l x)).
  now constructor.
Qed.

Lemma map_recount_id k cs (ts : list type_row) :
  map t_id (map (recount k cs) ts) = map t_id ts.
Proof. rewrite map_map. apply map_ext. intros t. apply recount_id. Qed.

Lemma map_recount_name k cs (ts : list type_row) :
  map t_name (map (recount k cs) ts) = map t_name ts.
Proof. rewrite map_map. apply map_ext. intros t. apply recount_name. Qed.

Lemma filter_name_first type_name (ts : list type_row) t rest :
  filter (name_is type_name) ts = t :: rest ->
  In t ts /\ t_name t = type_name.
Proof.
  intros Hf.
  assert (Hin : In t (filter (name_is type_name) ts)) by (rewrite Hf; now left).
  apply filter_In in Hin. destruct Hin as [Hin Hn].
  split; [exact Hin|]. now apply String.eqb_eq in Hn.
Qed.

Lemma filter_name_nil type_name (ts : list type_row) :
  filter (name_is type_name) ts = [] -> ~ In type_name (map t_name ts).
Proof.
  intros Hf Hin. apply in_map_iff in Hin. destruct Hin as (t & Hn & Ht).
  pose proof (filter_none _ _ Hf t Ht) as H. unfold name_is in H.
  rewrite Hn, String.eqb_refl in H. discriminate.
Qed.

(** The store after a successful [add_client], in full: the inserted row [c],
    the category [t0] it references, and the table [base] that is recounted,
    which is the old table, with [t0] appended when the name was new. *)
Lemma add_client_effect os now_type now name folder_path type_name date phone
    email notes db :
  path_exists os folder_path = true ->
  exists db' c t0 base avatar_path,
    add_client os now_type now name folder_path type_name date phone email
      notes db = (db', Ok (c_id c))
    /\ _generate_avatar os folder_path name = Ok avatar_path
    /\ c = inserted_client db name folder_path (t_id t0) date phone email notes
             avatar_path now
    /\ clients db' = (clients db ++ [c])%list
    /\ clients_seq db' = c_id c
    /\ types db' = map (recount (t_id t0) (clients db')) base
    /\ In t0 base
    /\ t_name t0 = type_name
    /\ ((base = types db /\ types_seq db' = types_seq db)
        \/ (filter (name_is type_name) (types db) = []
            /\ t0 = mkType (next_rowid (types_seq db) (map t_id (types db)))
                      type_name (Some theme_color) (Some now_type) 0
            /\ base = (types db ++ [t0])%list
            /\ types_seq db' = t_id t0)).
Proof.
  intros Hex.
  destruct (add_client_run os now_type now name folder_path type_name date
              phone email notes db Hex) as (db1 & type_id & avatar & Hg & Ha & Hrun).
  cbv zeta in Hrun.
  destruct (filter (name_is type_name) (types db)) as [|t ts] eqn:Hf.
  - rewrite (get_or_create_type_new now_type type_name db Hf) in Hg.
    cbv zeta in Hg. injection Hg as <- <-. rewrite Hrun.
    set (t0 := mkType (next_rowid (types_seq db) (map t_id (types db)))
                 type_name (Some theme_color) (Some now_type) 0).
    eexists _, (inserted_client db name folder_path (t_id t0) date phone email
                  notes avatar now), t0, (types db ++ [t0])%list, avatar.
    split; [reflexivity|]. split; [exact Ha|].
    cbn [clients types clients_seq types_seq].
    split; [reflexivity|]. split; [reflexivity|]. split; [reflexivity|].
    split; [reflexivity|].
    split; [apply in_or_app; right; left; reflexivity|].
    split; [reflexivity|]. right. repeat split.
  - destruct (filter_name_first _ _ _ _ Hf) as [Hin Hname].
    rewrite (get_or_create_type_found now_type type_name db (t_id t) (map t_id ts))
      in Hg by (now rewrite Hf).
    injection Hg as <- <-. rewrite Hrun.
    eexists _, (inserted_client db name folder_path (t_id t) date phone email
                  notes avatar now), t, (types db), avatar.
    split; [reflexivity|]. split; [exact Ha|].
    cbn [clients types clients_seq types_seq].
    split; [reflexivity|]. split; [reflexivity|]. split; [reflexivity|].
    split; [reflexivity|]. split; [exact Hin|]. split; [exact Hname|].
    left. now split.
Qed.

Lemma filter_unique_id (ts : list type_row) t0 :
  NoDup (map t_id ts) -> In t0 ts ->
  filter (fun t => t_id t0 =? t_id t) ts = [t0].
Proof.
  induction ts as [|t ts IH]; [contradiction|].
  cbn [map filter]. intros Hnd Hin. inversion Hnd as [|? ? Hnotin Hnd']; subst.
  destruct Hin as [->|Hin].
  - rewrite Z.eqb_refl. f_equal. apply filter_nil_all. intros u Hu.
    apply Z.eqb_neq. intros He. apply Hnotin. rewrite He. now apply in_map.
  - destruct (Z.eqb_spec (t_id t0) (t_id t)) as [He|_]; [|now apply IH].
    exfalso. apply Hnotin. rewrite <- He. now apply in_map.
Qed.

Lemma add_client_base_ids now_type type_name db t0 base (seq' : Z) :
  NoDup (map t_id (types db)) ->
  (base = types db /\ seq' = types_seq db)
  \/ (filter (name_is type_name) (types db) = []
      /\ t0 = mkType (next_rowid (types_seq db) (map t_id (types db)))
                type_name (Some theme_color) (Some now_type) 0
      /\ base = (types db ++ [t0])%list
      /\ seq' = t_id t0) ->
  NoDup (map t_id base).
Proof.
  intros Hnd [[-> _]|(_ & -> & -> & _)]; [exact Hnd|].
  rewrite map_app. apply NoDup_snoc; [exact Hnd|].
  cbn [map t_id]. intros Hin. apply (next_rowid_fresh (types_seq db)) in Hin. lia.
Qed.

(** X2. What [add_client] stores is what [get_client_by_id] returns. On a
    store whose category ids are unique, a client added with an existing path
    is found under the returned id, with the name, folder path, date, phone,
    email and notes that were given, both timestamps equal to the clock
    reading, the thumbnail path that was generated, and the category name
    that was given. *)
Theorem add_then_get_client os now_type now name folder_path tname date
    phone email notes db :
  path_exists os folder_path = true ->
  NoDup (map t_id (types db)) ->
  exists db' client_id row,
    add_client os now_type now name folder_path tname date phone email
      notes db = (db', Ok client_id)
    /\ get_client_by_id client_id db' = (db', Ok (Some row))
    /\ c_id (j_client row) = client_id
    /\ c_name (j_client row) = name
    /\ c_folder_path (j_client row) = folder_path
    /\ c_date (j_client row) = date
    /\ c_phone (j_client row) = Some phone
    /\ c_email (j_client row) = Some email
    /\ c_notes (j_client row) = Some notes
    /\ Ok (c_avatar_path (j_client row))
       = result_bind (_generate_avatar os folder_path name) (fun p => Ok (Some p))
    /\ c_created_at (j_client row) = Some now
    /\ c_updated_at (j_client row) = Some now
    /\ type_name row = Some tname.
Proof.
  intros Hex Hnd.
  destruct (add_client_effect os now_type now name folder_path tname date
              phone email notes db Hex)
    as (db' & c & t0 & base & avatar & Hadd & Ha & Hc & Hcs & Hseq & Hts
        & Hin0 & Hname & Hcase).
  pose proof (add_client_base_ids now_type tname db t0 base _ Hnd Hcase)
    as Hndb.
  set (t1 := recount (t_id t0) (clients db') t0).
  exists db', (c_id c), (mkJoined c (Some (t_name t1)) (t_color t1)).
  split; [exact Hadd|]. split.
  - rewrite get_client_by_id_eq, left_join_rows, Hcs, flat_map_app, filter_app.
    rewrite (filter_nil_all _ (flat_map _ (clients db))).
    + cbn [flat_map app]. rewrite app_nil_r.
      assert (Hrows : join_rows (types db') c
                      = [mkJoined c (Some (t_name t1)) (t_color t1)]).
      { unfold join_rows. replace (c_type_id c) with (Some (t_id t0))
          by (now rewrite Hc).
        replace (t_id t0) with (t_id t1) by apply recount_id.
        rewrite (filter_unique_id (types db') t1); [reflexivity| |].
        - now rewrite Hts, map_recount_id.
        - rewrite Hts. now apply in_map. }
      rewrite Hrows. cbn [filter j_client]. now rewrite Z.eqb_refl.
    + intros r Hr. apply in_flat_map in Hr. destruct Hr as (c' & Hc' & Hr).
      rewrite (join_rows_client _ _ _ Hr). apply Z.eqb_neq.
      assert (c_id c' < c_id c); [|lia].
      rewrite Hc. cbn [inserted_client c_id].
      apply next_rowid_fresh. now apply in_map.
  - cbn [j_client type_name]. rewrite Ha, Hc. cbn.
    repeat (split; [reflexivity|]).
    unfold t1. now rewrite recount_name, Hname.
Qed.

Lemma count_clients_app k (a b : list client) :
  count_clients_of_type k (a ++ b)
  = count_clients_of_type k a + count_clients_of_type k b.
Proof.
  unfold count_clients_of_type. rewrite filter_app, length_app. lia.
Qed.

(** X4. [add_client] keeps the counts right. If every category stored the
    true number of its clients before a successful [add_client], every
    category does so afterwards. *)
Theorem add_client_keeps_counts_accurate os now_type now name folder_path
    type_name date phone email notes db db' client_id :
  counts_accurate db ->
  add_client os now_type now name folder_path type_name date phone email notes
    db = (db', Ok client_id) ->
  counts_accurate db'.
Proof.
  intros Hacc H.
  pose proof (add_client_ok_path _ _ _ _ _ _ _ _ _ _ _ _ _ H) as Hex.
  destruct (add_client_effect os now_type now name folder_path type_name date
              phone email notes db Hex)
    as (db1 & c & t0 & base & avatar & Hadd & _ & Hc & Hcs & _ & Hts
        & Hin0 & _ & Hcase).
  rewrite Hadd in H. injection H as <- <-.
  intros t' Ht'. rewrite Hts in Ht'. apply in_map_iff in Ht'.
  destruct Ht' as (t & <- & Ht). rewrite recount_id. unfold recount.
  destruct (Z.eqb_spec (t_id t) (t_id t0)) as [He|Hne].
  - cbn [set_client_count t_client_count]. now rewrite He.
  - assert (Hold : In t (types db)).
    { destruct Hcase as [[-> _]|(_ & _ & -> & _)]; [exact Ht|].
      apply in_app_or in Ht. destruct Ht as [Ht|[<-|[]]]; [exact Ht|].
      contradiction. }
    rewrite (Hacc t Hold), Hcs, count_clients_app.
    unfold count_clients_of_type at 3. rewrite Hc. cbn [filter inserted_client c_type_id].
    destruct (Z.eqb_spec (t_id t0) (t_id t)) as [He|_]; [congruence|].
    cbn. lia.
Qed.

Lemma new_client_id_fresh db name folder_path k date phone email notes avatar now :
  ~ In (c_id (inserted_client db name folder_path k date phone email notes
                avatar now)) (map c_id (clients db)).
Proof.
  cbn [inserted_client c_id]. intros Hin.
  apply (next_rowid_fresh (clients_seq db)) in Hin. lia.
Qed.

(** X5. [add_client] keeps the schema's constraints and the references:
    after a successful call on a store with unique client ids, unique
    category ids and unique category names, all three are still unique; and
    if every client referenced an existing category before, every client,
    the new one included, does so afterwards. *)
Theorem add_client_keeps_keys_and_references os now_type now name folder_path
    tname date phone email notes db db' client_id :
  add_client os now_type now name folder_path tname date phone email notes
    db = (db', Ok client_id) ->
  (keys_unique db -> keys_unique db')
  /\ (types_resolved db -> types_resolved db').
Proof.
  intros H.
  pose proof (add_client_ok_path _ _ _ _ _ _ _ _ _ _ _ _ _ H) as Hex.
  destruct (add_client_effect os now_type now name folder_path tname date
              phone email notes db Hex)
    as (db1 & c & t0 & base & avatar & Hadd & _ & Hc & Hcs & _ & Hts
        & Hin0 & Hname & Hcase).
  rewrite Hadd in H. injection H as <- <-. split.
  - intros (Hci & Hti & Htn). unfold keys_unique.
    rewrite Hcs, Hts, map_app, map_recount_id, map_recount_name.
    split; [|split].
    + apply NoDup_snoc; [exact Hci|]. cbn [map]. rewrite Hc.
      apply new_client_id_fresh.
    + exact (add_client_base_ids now_type tname db t0 base _ Hti Hcase).
    + destruct Hcase as [[-> _]|(Hnil & Ht0 & -> & _)]; [exact Htn|].
      rewrite map_app. apply NoDup_snoc; [exact Htn|].
      cbn [map]. rewrite Hname. now apply filter_name_nil.
  - intros Hres c' Hc'. rewrite Hcs in Hc'. apply in_app_or in Hc'.
    assert (Hbase : forall t, In t (types db) -> In t base).
    { intros t Ht. destruct Hcase as [[-> _]|(_ & _ & -> & _)]; [exact Ht|].
      apply in_or_app. now left. }
    destruct Hc' as [Hc'|[<-|[]]].
    + destruct (Hres c' Hc') as (t & Ht & Hty).
      exists (recount (t_id t0) (clients db1) t). rewrite recount_id.
      split; [|exact Hty]. rewrite Hts. apply in_map. now apply Hbase.
    + exists (recount (t_id t0) (clients db1) t0). rewrite recount_id.
      split; [rewrite Hts; now apply in_map|]. now rewrite Hc.
Qed.

(** ** The count after a delete *)

Lemma count_clients_cons k c (cs : list client) :
  count_clients_of_type k (c :: cs)
  = (match c_type_id c with
     | Some j => if j =? k then 1 else 0
     | None => 0
     end) + count_clients_of_type k cs.
Proof.
  unfold count_clients_of_type. cbn [filter].
  destruct (c_type_id c) as [j|]; [destruct (j =? k)|]; cbn [List.length]; lia.
Qed.

Lemma count_after_delete k c (cs : list client) :
  NoDup (map c_id cs) -> In c cs -> c_type_id c = Some k ->
  count_clients_of_type k (filter (fun x => negb (c_id x =? c_id c)) cs) + 1
  = count_clients_of_type k cs.
Proof.
  induction cs as [|x cs IH]; [contradiction|].
  cbn [map]. intros Hnd Hin Hk. inversion Hnd as [|? ? Hnotin Hnd']; subst.
  cbn [filter]. destruct Hin as [->|Hin].
  - rewrite Z.eqb_refl. cbn [negb]. rewrite filter_all.
    + rewrite count_clients_cons, Hk, Z.eqb_refl. lia.
    + intros y Hy. apply negb_true_iff, Z.eqb_neq. intros He.
      apply Hnotin. rewrite <- He. now apply in_map.
  - destruct (Z.eqb_spec (c_id x) (c_id c)) as [He|_].
    + exfalso. apply Hnotin. rewrite He. now apply in_map.
    + cbn [negb]. rewrite !count_clients_cons, <- (IH Hnd' Hin Hk). lia.
Qed.

(** Deleting rows keeps the remaining client ids distinct. *)
Lemma client_ids_after_delete (client_id : Z) (cs : list client) :
  NoDup (map c_id cs) ->
  NoDup (map c_id (filter (fun c => negb (c_id c =? client_id)) cs)).
Proof.
  induction cs as [|c cs IH]; [trivial|]. cbn [map filter].
  intros Hnd. inversion Hnd as [|? ? Hnotin Hnd']; subst.
  destruct (negb (c_id c =? client_id)); [|now apply IH].
  cbn [map]. constructor; [|now apply IH].
  intros Hin. apply Hnotin. apply in_map_iff in Hin.
  destruct Hin as (y & Hy & Hin). apply filter_In in Hin.
  rewrite <- Hy. apply in_map. tauto.
Qed.

(** X6. [delete_client] leaves the category's count one too high. On a
    store with unique client ids and accurate counts, deleting a client whose
    category exists leaves that category's stored [client_count] exactly one
    above the number of clients that still reference it, so the counts are no
    longer accurate; the keys stay unique. *)
Theorem delete_client_leaves_count_stale (db : DB) (c : client) (t : type_row) :
  keys_unique db ->
  counts_accurate db ->
  In c (clients db) ->
  In t (types db) ->
  c_type_id c = Some (t_id t) ->
  exists db',
    delete_client (c_id c) db = (db', Ok tt)
    /\ In t (types db')
    /\ t_client_count t = count_clients_of_type (t_id t) (clients db') + 1
    /\ ~ counts_accurate db'
    /\ keys_unique db'.
Proof.
  intros (Hci & Hti & Htn) Hacc Hc Ht Hty.
  eexists. split; [reflexivity|]. cbn [clients types].
  assert (Hcount : t_client_count t
                   = count_clients_of_type (t_id t)
                       (filter (fun x => negb (c_id x =? c_id c)) (clients db)) + 1).
  { rewrite (Hacc t Ht). symmetry. now apply count_after_delete. }
  split; [exact Ht|]. split; [exact Hcount|]. split.
  - intros Hacc'. specialize (Hacc' t Ht). cbn [clients] in Hacc'. lia.
  - split; [|split]; cbn [clients types]; [|exact Hti|exact Htn].
    now apply client_ids_after_delete.
Qed.

(** ** Category colors *)

Lemma recolor_id k color t : t_id (recolor k color t) = t_id t.
Proof. unfold recolor. now destruct (t_id t =? k). Qed.

Lemma recolor_name k color t : t_name (recolor k color t) = t_name t.
Proof. unfold recolor. now destruct (t_id t =? k). Qed.

Lemma recolor_count k color t :
  t_client_count (recolor k color t) = t_client_count t.
Proof. unfold recolor. now destruct (t_id t =? k). Qed.

Lemma update_type_color_eq type_id color db :
  update_type_color type_id color db
  = (mkDB (clients db) (map (recolor type_id color) (types db))
          (clients_seq db) (types_seq db), Ok tt).
Proof. reflexivity. Qed.

Lemma insert_by_map {A} (before : A -> A -> bool) (g : A -> A) x (l : list A) :
  (forall a b, before (g a) (g b) = before a b) ->
  insert_by before (g x) (map g l) = map g (insert_by before x l).
Proof.
  intros Hg. induction l as [|y l IH]; [reflexivity|].
  cbn [map insert_by]. rewrite Hg. destruct (before x y); [reflexivity|].
  cbn [map]. now rewrite IH.
Qed.

Lemma order_by_map {A} (before : A -> A -> bool) (g : A -> A) (l : list A) :
  (forall a b, before (g a) (g b) = before a b) ->
  order_by before (map g l) = map g (order_by before l).
Proof.
  intros Hg. induction l as [|x l IH]; [reflexivity|].
  cbn [map order_by fold_right]. fold (order_by before (map g l)).
  fold (order_by before l). rewrite IH. now apply insert_by_map.
Qed.

Lemma map_id_on {A} (g : A -> A) (l : list A) :
  (forall x, In x l -> g x = x) -> map g l = l.
Proof.
  induction l as [|x l IH]; intros H; [reflexivity|]. cbn [map].
  rewrite (H x (or_introl eq_refl)), IH; [reflexivity|].
  intros y Hy. apply H. now right.
Qed.

(** X7. [update_type_color] never raises and touches one column only: the
    clients are as before; every category keeps its id, name and count and
    its place in [get_types]; the rows with the given id now have the given
    color and all other rows are unchanged; with an id that no category has,
    the store is exactly as before; and a second update of the same id
    overrides the first. *)
Theorem update_type_color_frame (type_id : Z) (color : string) (db : DB) :
  exists db',
    update_type_color type_id color db = (db', Ok tt)
    /\ clients db' = clients db
    /\ map t_id (types db') = map t_id (types db)
    /\ map t_name (types db') = map t_name (types db)
    /\ map t_client_count (types db') = map t_client_count (types db)
    /\ (forall t, In t (types db') -> t_id t = type_id -> t_color t = Some color)
    /\ (forall t, t_id t <> type_id -> (In t (types db') <-> In t (types db)))
    /\ ((forall t, In t (types db) -> t_id t <> type_id) -> db' = db)
    /\ (exists rows, get_types db = (db, Ok rows)
          /\ get_types db' = (db', Ok (map (recolor type_id color) rows)))
    /\ (forall color2, fst (update_type_color type_id color2 db')
                       = fst (update_type_color type_id color2 db)).
Proof.
  rewrite update_type_color_eq. eexists. split; [reflexivity|].
  cbn [clients types]. split; [reflexivity|].
  split; [rewrite map_map; apply map_ext, recolor_id|].
  split; [rewrite map_map; apply map_ext, recolor_name|].
  split; [rewrite map_map; apply map_ext, recolor_count|].
  split; [|split; [|split; [|split]]].
  - intros t Ht Hid. apply in_map_iff in Ht. destruct Ht as (u & <- & _).
    rewrite recolor_id in Hid. unfold recolor.
    apply Z.eqb_eq in Hid. now rewrite Hid.
  - intros t Hne. rewrite in_map_iff. split.
    + intros (u & Hu & Hin). unfold recolor in Hu.
      destruct (Z.eqb_spec (t_id u) type_id) as [He|_]; [|now subst].
      subst t. now cbn in Hne.
    + intros Hin. exists t. split; [|exact Hin]. unfold recolor.
      now destruct (Z.eqb_spec (t_id t) type_id).
  - intros Hnone. rewrite map_id_on; [apply db_eta|].
    intros t Ht. unfold recolor.
    now destruct (Z.eqb_spec (t_id t) type_id) as [He|_]; [destruct (Hnone t Ht)|].
  - eexists. split; [reflexivity|].
    unfold get_types, execute_query, sql_select_types. cbn [types].
    rewrite order_by_map; [reflexivity|].
    intros a b. unfold by_count_desc. now rewrite !recolor_count.
  - intros color2. rewrite !update_type_color_eq. cbn [fst clients types clients_seq types_seq].
    f_equal. rewrite map_map. apply map_ext. intros t. unfold recolor.
    destruct (Z.eqb_spec (t_id t) type_id) as [He|Hne].
    + cbn [set_color t_id]. apply Z.eqb_eq in He. now rewrite He.
    + apply Z.eqb_neq in Hne. now rewrite Hne.
Qed.

(** X8. The new color shows in the listings: after [update_type_color], every
    row of [get_all_clients], and every answer of [get_client_by_id], whose
    client belongs to that category and whose category was found carries the
    new color. *)
Theorem update_type_color_shows (type_id : Z) (color : string) (db : DB) :
  exists db' rows,
    update_type_color type_id color db = (db', Ok tt)
    /\ get_all_clients db' = (db', Ok rows)
    /\ (forall row, In row rows ->
          c_type_id (j_client row) = Some type_id ->
          type_name row <> None ->
          type_color row = Some color)
    /\ (forall client_id row,
          get_client_by_id client_id db' = (db', Ok (Some row)) ->
          c_type_id (j_client row) = Some type_id ->
          type_name row <> None ->
          type_color row = Some color).
Proof.
  rewrite update_type_color_eq. eexists _, _. split; [reflexivity|].
  split; [reflexivity|].
  set (db' := mkDB _ _ _ _).
  assert (Hjoin : forall row, In row (left_join db') ->
            c_type_id (j_client row) = Some type_id ->
            type_name row <> None -> type_color row = Some color).
  { intros row Hrow Hty Hfound. rewrite left_join_rows in Hrow.
    apply in_flat_map in Hrow. destruct Hrow as (c & _ & Hrow).
    pose proof (join_rows_client _ _ _ Hrow) as Hc. subst c.
    unfold join_rows in Hrow. rewrite Hty in Hrow.
    destruct (filter (fun t => type_id =? t_id t) (types db')) as [|u us] eqn:Hf.
    - destruct Hrow as [Hr|[]]. rewrite <- Hr in Hfound. now cbn in Hfound.
    - apply in_map_iff in Hrow. destruct Hrow as (t & Hr & Ht).
      rewrite <- Hf in Ht. apply filter_In in Ht. destruct Ht as [Ht Hid].
      apply Z.eqb_eq in Hid. rewrite <- Hr. cbn [type_color].
      subst db'. cbn [types] in Ht. apply in_map_iff in Ht.
      destruct Ht as (t1 & <- & _). rewrite recolor_id in Hid.
      unfold recolor. symmetry in Hid. apply Z.eqb_eq in Hid. now rewrite Hid. }
  split.
  - intros row Hrow. apply Hjoin.
    apply (Permutation_in row (Permutation_sym (order_by_perm _ _)) Hrow).
  - intros client_id row Hget. rewrite get_client_by_id_eq in Hget.
    injection Hget as Hget. apply Hjoin.
    destruct (filter _ (left_join db')) as [|r rs] eqn:Hf; [discriminate|].
    injection Hget as ->.
    assert (Hin : In row (filter (fun r => c_id (j_client r) =? client_id)
                            (left_join db'))) by (rewrite Hf; now left).
    now apply filter_In in Hin.
Qed.

(** ** Categories and statistics *)

Lemma by_count_desc_total a b :
  by_count_desc a b = true \/ by_count_desc b a = true.
Proof.
  unfold by_count_desc.
  destruct (Z.leb_spec (t_client_count b) (t_client_count a)); [now left|].
  right. apply Z.leb_le. lia.
Qed.

Lemma by_created_desc_total a b :
  by_created_desc a b = true \/ by_created_desc b a = true.
Proof.
  unfold by_created_desc.
  rewrite (sql_compare_antisym (c_created_at b) (c_created_at a)).
  destruct (sql_compare (c_created_at a) (c_created_at b)); simpl; auto.
Qed.

(** X9. [get_types] does not change the store and returns every category
    exactly once, a category never standing before one with a larger
    [client_count]. *)
Theorem get_types_sorted (db : DB) :
  exists rows,
    get_types db = (db, Ok rows)
    /\ Permutation (types db) rows
    /\ Sorted (fun a b => t_client_count b <= t_client_count a) rows.
Proof.
  eexists. split; [reflexivity|]. split; [apply order_by_perm|].
  pose proof (order_by_sorted by_count_desc by_count_desc_total (types db)) as H.
  induction H as [|t l Hs IH Hh]; constructor; [exact IH|].
  destruct Hh as [|u l Hu]; constructor.
  unfold by_count_desc in Hu. now apply Z.leb_le.
Qed.

Lemma firstn_5_length {A} (l : list A) :
  List.length (firstn 5 l) = Nat.min 5 (List.length l).
Proof. apply length_firstn. Qed.

(** X10. [get_stats] is a pure read. It never raises and leaves the store as
    it was; the total is the number of client rows; the distribution lists
    the categories in the order of [get_types]; the recent clients are the
    first five, or all if there are fewer, of the clients ordered by creation
    time, newest first. *)
Theorem get_stats_snapshot (db : DB) :
  exists s rows newest_first,
    get_stats db = (db, Ok s)
    /\ total_clients s = Z.of_nat (List.length (clients db))
    /\ get_types db = (db, Ok rows)
    /\ type_distribution s = map (fun t => (t_name t, t_client_count t)) rows
    /\ Permutation (clients db) newest_first
    /\ Sorted (fun a b => by_created_desc a b = true) newest_first
    /\ recent_clients s
       = map (fun c => (c_name c, c_created_at c)) (firstn 5 newest_first)
    /\ List.length (recent_clients s) = Nat.min 5 (List.length (clients db)).
Proof.
  eexists _, _, (order_by by_created_desc (clients db)).
  split; [reflexivity|]. cbn [total_clients type_distribution recent_clients].
  split; [reflexivity|]. split; [reflexivity|]. split; [reflexivity|].
  split; [apply order_by_perm|].
  split; [apply order_by_sorted, by_created_desc_total|].
  split; [reflexivity|].
  rewrite length_map, firstn_5_length.
  now rewrite <- (Permutation_length (order_by_perm by_created_desc (clients db))).
Qed.

Lemma sumZ_perm (l l' : list Z) : Permutation l l' -> sumZ l = sumZ l'.
Proof.
  unfold sumZ.
  induction 1 as [|x l l' _ IH|x y l|l l' l'' _ IH1 _ IH2]; cbn [fold_right]; lia.
Qed.

Lemma sumZ_map_add {A} (f g : A -> Z) (l : list A) :
  sumZ (map (fun x => f x + g x) l) = sumZ (map f l) + sumZ (map g l).
Proof.
  induction l as [|x l IH]; [reflexivity|].
  cbn [map sumZ fold_right]. fold (sumZ (map (fun x => f x + g x) l)).
  fold (sumZ (map f l)). fold (sumZ (map g l)). lia.
Qed.

Lemma sumZ_map_zero {A} (f : A -> Z) (l : list A) :
  (forall x, In x l -> f x = 0) -> sumZ (map f l) = 0.
Proof.
  induction l as [|x l IH]; intros H; [reflexivity|].
  cbn [map sumZ fold_right]. fold (sumZ (map f l)).
  rewrite (H x (or_introl eq_refl)), IH; [reflexivity|].
  intros y Hy. apply H. now right.
Qed.

Lemma sum_one_category (ts : list type_row) t :
  NoDup (map t_id ts) -> In t ts ->
  sumZ (map (fun u => if t_id t =? t_id u then 1 else 0) ts) = 1.
Proof.
  induction ts as [|u ts IH]; [contradiction|].
  cbn [map]. intros Hnd Hin. inversion Hnd as [|? ? Hnotin Hnd']; subst.
  cbn [sumZ fold_right].
  fold (sumZ (map (fun u => if t_id t =? t_id u then 1 else 0) ts)).
  destruct Hin as [->|Hin].
  - rewrite Z.eqb_refl, sumZ_map_zero; [reflexivity|].
    intros v Hv. destruct (Z.eqb_spec (t_id t) (t_id v)) as [He|_]; [|reflexivity].
    exfalso. apply Hnotin. rewrite He. now apply in_map.
  - rewrite (IH Hnd' Hin).
    destruct (Z.eqb_spec (t_id t) (t_id u)) as [He|_]; [|reflexivity].
    exfalso. apply Hnotin. rewrite <- He. now apply in_map.
Qed.

Lemma sum_true_counts (ts : list type_row) (cs : list client) :
  NoDup (map t_id ts) ->
  (forall c, In c cs -> exists t, In t ts /\ c_type_id c = Some (t_id t)) ->
  sumZ (map (fun t => count_clients_of_type (t_id t) cs) ts)
  = Z.of_nat (List.length cs).
Proof.
  intros Hnd. induction cs as [|c cs IH]; intros Hres.
  - now apply sumZ_map_zero.
  - destruct (Hres c (or_introl eq_refl)) as (t & Ht & Hty).
    rewrite (map_ext _ (fun u => (if t_id t =? t_id u then 1 else 0)
                                 + count_clients_of_type (t_id u) cs)).
    + rewrite sumZ_map_add, (sum_one_category ts t Hnd Ht), IH.
      * cbn [List.length]. lia.
      * intros c' Hc'. apply Hres. now right.
    + intros u. now rewrite count_clients_cons, Hty.
Qed.

(** X11. The statistics add up on a consistent store: when category ids are
    unique, the stored counts are accurate and every client references an
    existing category, the counts of the distribution sum to the total. *)
Theorem get_stats_distribution_sums (db : DB) :
  keys_unique db ->
  counts_accurate db ->
  types_resolved db ->
  exists s,
    get_stats db = (db, Ok s)
    /\ sumZ (map snd (type_distribution s)) = total_clients s.
Proof.
  intros (_ & Hti & _) Hacc Hres. eexists. split; [reflexivity|].
  cbn [type_distribution total_clients].
  replace (map snd (map _ (order_by by_count_desc (types db))))
    with (map t_client_count (order_by by_count_desc (types db)))
    by (now rewrite map_map).
  rewrite <- (sumZ_perm _ _ (Permutation_map t_client_count
                               (order_by_perm by_count_desc (types db)))).
  rewrite (map_ext_in _ (fun t => count_clients_of_type (t_id t) (clients db)))
    by exact Hacc.
  now apply sum_true_counts.
Qed.

(** ** The photo count of a card *)

Lemma photo_is_image (f : string) :
  is_photo_file f = true -> is_image_file f = true.
Proof.
  unfold is_photo_file, is_image_file, photo_extensions, image_extensions.
  cbn [existsb]. rewrite !orb_false_r.
  destruct (endswith (lower f) ".jpg"), (endswith (lower f) ".jpeg"),
    (endswith (lower f) ".png"), (endswith (lower f) ".bmp"); cbn;
    intros H; try reflexivity; discriminate.
Qed.

Lemma filter_length_le {A} (p q : A -> bool) (l : list A) :
  (forall x, p x = true -> q x = true) ->
  (List.length (filter p l) <= List.length (filter q l))%nat.
Proof.
  intros H. induction l as [|x l IH]; [apply Nat.le_refl|]. cbn [filter].
  destruct (p x) eqn:Hp.
  - rewrite (H x Hp). cbn [List.length]. lia.
  - destruct (q x); cbn [List.length]; lia.
Qed.

Lemma find_some_of_filter {A} (p : A -> bool) (l : list A) :
  (0 < List.length (filter p l))%nat -> exists x, find p l = Some x.
Proof.
  induction l as [|x l IH]; cbn [filter find List.length]; [lia|].
  destruct (p x); [eauto|exact IH].
Qed.

(** X12. [Card._count_photos] never raises. It gives 0 when nothing exists at
    the path and when the listing fails; otherwise it gives the number of
    entries with a photo extension, which is at most the number of entries
    that [_generate_avatar] takes for images; and whenever it counts at least
    one photo, [_generate_avatar] finds a file to make the thumbnail from. *)
Theorem count_photos_total (os : OS) (folder_path : string) :
  exists n,
    _count_photos os folder_path = Ok n
    /\ (path_exists os folder_path = false -> n = 0%nat)
    /\ (forall e, listdir os folder_path = Raise e -> n = 0%nat)
    /\ (forall files, listdir os folder_path = Ok files ->
          n = List.length (filter is_photo_file files)
          /\ (n <= List.length (filter is_image_file files))%nat
          /\ ((0 < n)%nat -> exists file, find is_image_file files = Some file)).
Proof.
  unfold _count_photos, path_exists, listdir.
  destruct (lookup os folder_path) as [[|[files|e]]|]; cbn [try_except result_bind].
  - exists 0%nat. repeat split; try discriminate.
  - exists (List.length (filter is_photo_file files)).
    split; [reflexivity|]. split; [discriminate|]. split; [discriminate|].
    intros files' [= <-]. split; [reflexivity|].
    pose proof (filter_length_le is_photo_file is_image_file files photo_is_image).
    split; [assumption|]. intros Hpos. apply find_some_of_filter. lia.
  - exists 0%nat. repeat split; try discriminate.
  - exists 0%nat. repeat split; try discriminate.
Qed.

(** ** Searching from the toolbar *)

Lemma string_length_ind (P : string -> Prop) :
  (forall s, (forall t, (String.length t < String.length s)%nat -> P t) -> P s) ->
  forall s, P s.
Proof.
  intros H s. remember (String.length s) as n eqn:E. revert s E.
  induction n as [n IH] using lt_wf_ind. intros s ->.
  apply H. intros t Ht. exact (IH _ Ht t eq_refl).
Qed.

Lemma lstrip_eq s :
  lstrip s = match after_space s with
             | Some t => lstrip t
             | None => s
             end.
Proof.
  destruct s as [|a [|b [|c s3]]]; cbn [after_space]; try reflexivity;
    change (lstrip (String a ?r))
      with (if is_space a then lstrip r
            else match r with
                 | EmptyString => String a r
                 | String b s2 =>
                     if two_byte_space a b then lstrip s2
                     else match s2 with
                          | EmptyString => String a r
                          | String c s3 =>
                              if three_byte_space a b c then lstrip s3
                              else String a r
                          end
                 end);
    destruct (is_space a); try reflexivity;
    destruct (two_byte_space a b); try reflexivity;
    destruct (three_byte_space a b c); reflexivity.
Qed.

Lemma after_space_length s t :
  after_space s = Some t -> (String.length t < String.length s)%nat.
Proof.
  destruct s as [|a [|b [|c s3]]]; cbn [after_space String.length];
    try discriminate;
    destruct (is_space a); try (intros [= <-]; cbn [String.length]; lia);
    try discriminate;
    destruct (two_byte_space a b); try (intros [= <-]; cbn [String.length]; lia);
    try discriminate;
    destruct (three_byte_space a b c); try discriminate;
    intros [= <-]; cbn [String.length]; lia.
Qed.

Lemma after_space_app p t w :
  after_space p = Some t -> after_space (p ++ w) = Some (t ++ w).
Proof.
  destruct p as [|a [|b [|c p3]]]; cbn [after_space append];
    try discriminate;
    destruct (is_space a); try (now intros [= <-]);
    try discriminate;
    destruct (two_byte_space a b); try (now intros [= <-]);
    try discriminate;
    destruct (three_byte_space a b c); try discriminate;
    now intros [= <-].
Qed.

Lemma lstrip_length s : (String.length (lstrip s) <= String.length s)%nat.
Proof.
  induction s as [s IH] using string_length_ind. rewrite lstrip_eq.
  destruct (after_space s) as [t|] eqn:Ha; [|lia].
  pose proof (after_space_length _ _ Ha). specialize (IH t). lia.
Qed.

Lemma lstrip_idempotent s : lstrip (lstrip s) = lstrip s.
Proof.
  induction s as [s IH] using string_length_ind. rewrite (lstrip_eq s).
  destruct (after_space s) as [t|] eqn:Ha.
  - apply IH. now apply after_space_length.
  - rewrite lstrip_eq, Ha. reflexivity.
Qed.

(** White space in front of a text does not count. *)
Lemma lstrip_app_blank p w : lstrip p = "" -> lstrip (p ++ w) = lstrip w.
Proof.
  induction p as [p IH] using string_length_ind. rewrite (lstrip_eq p).
  destruct (after_space p) as [t|] eqn:Ha.
  - intros Ht. rewrite (lstrip_eq (p ++ w)), (after_space_app _ _ w Ha).
    apply IH; [now apply after_space_length|exact Ht].
  - now intros ->.
Qed.

Lemma rstrip_eq a s :
  rstrip (String a s)
  = if blank (String a s) then "" else String a (rstrip s).
Proof. reflexivity. Qed.

(** What [rstrip] drops is white space. *)
Lemma rstrip_split s : exists w, s = rstrip s ++ w /\ lstrip w = "".
Proof.
  induction s as [|a s IH]; [now exists ""|]. rewrite rstrip_eq.
  destruct (blank (String a s)) eqn:Hb.
  - exists (String a s). split; [reflexivity|].
    now apply String.eqb_eq in Hb.
  - destruct IH as (w & Hs & Hw). exists w. split; [|exact Hw].
    cbn [append]. now rewrite <- Hs.
Qed.

Lemma rstrip_idempotent s : rstrip (rstrip s) = rstrip s.
Proof.
  induction s as [|a s IH]; [reflexivity|]. rewrite rstrip_eq.
  destruct (blank (String a s)) eqn:Hb; [reflexivity|].
  rewrite rstrip_eq, IH.
  destruct (blank (String a (rstrip s))) eqn:Hb'; [|reflexivity].
  exfalso. destruct (rstrip_split s) as (w & Hs & Hw).
  apply String.eqb_eq in Hb'. unfold blank in Hb.
  assert (Hl : lstrip (String a s) = "").
  { rewrite Hs. change (String a (rstrip s ++ w)) with (String a (rstrip s) ++ w).
    now rewrite (lstrip_app_blank _ w Hb'). }
  rewrite Hl in Hb. discriminate.
Qed.

(** [rstrip] leaves the front of a text alone. *)
Lemma lstrip_rstrip t : lstrip t = t -> lstrip (rstrip t) = rstrip t.
Proof.
  intros Ht. destruct (rstrip_split t) as (w & Hs & _).
  remember (rstrip t) as p eqn:Ep. clear Ep. subst t.
  rewrite lstrip_eq. destruct (after_space p) as [q|] eqn:Ha; [|reflexivity].
  exfalso. pose proof (after_space_app _ _ w Ha) as Happ.
  rewrite lstrip_eq, Happ in Ht.
  pose proof (lstrip_length (q ++ w)) as Hlen.
  pose proof (after_space_length _ _ Happ) as Hlt.
  rewrite Ht in Hlen. lia.
Qed.

Lemma strip_idempotent s : strip (strip s) = strip s.
Proof.
  unfold strip. rewrite (lstrip_rstrip (lstrip s) (lstrip_idempotent s)).
  apply rstrip_idempotent.
Qed.

Lemma strip_blank s : blank s = true <-> strip s = "".
Proof.
  unfold strip, blank. split.
  - intros H. apply String.eqb_eq in H. now rewrite H.
  - intros H. apply String.eqb_eq.
    destruct (lstrip s) as [|a r] eqn:Hl; [reflexivity|].
    rewrite rstrip_eq in H. destruct (blank (String a r)) eqn:Hb; [|discriminate].
    apply String.eqb_eq in Hb. rewrite <- Hl, lstrip_idempotent, Hl in Hb.
    exact Hb.
Qed.

(** X13. [on_search] depends on the search box only up to surrounding white
    space, Unicode white space included: the box and its stripped text do the
    same. A box of white space only shows the grid of all clients (so the
    empty pattern is never run from the toolbar), and any other box searches
    for its stripped text and shows the grid of what was found. *)
Theorem on_search_ignores_surrounding_space (tk : Tk) (search_var : string)
    (db : DB) :
  App.on_search tk (strip search_var) db = App.on_search tk search_var db
  /\ (blank search_var = true ->
      App.on_search tk search_var db = refresh_client_grid tk None db)
  /\ (blank search_var = false ->
      App.on_search tk search_var db
      = (clients <- search_clients (strip search_var) ;;
         refresh_client_grid tk (Some clients)) db).
Proof.
  unfold App.on_search. rewrite strip_idempotent. split; [reflexivity|].
  pose proof (strip_blank search_var) as Hb.
  destruct (String.eqb_spec (strip search_var) "") as [He|Hne]; cbn [negb].
  - split; [reflexivity|]. intros H. apply Hb in He. congruence.
  - split; [|reflexivity]. intros H. apply Hb in H. contradiction.
Qed.

(** ** Opening a client's folder *)

Lemma get_client_by_id_cases (client_id : Z) (db : DB) :
  (get_client_by_id client_id db = (db, Ok None)
   /\ forall c, In c (clients db) -> c_id c <> client_id)
  \/ (exists row, get_client_by_id client_id db = (db, Ok (Some row))
        /\ In (j_client row) (clients db) /\ c_id (j_client row) = client_id).
Proof.
  rewrite get_client_by_id_eq.
  destruct (filter (fun r => c_id (j_client r) =? client_id) (left_join db))
    as [|r rs] eqn:Hf.
  - left. split; [reflexivity|]. intros c Hc Hid.
    destruct (left_join_covers db c Hc) as (r & Hr & <-).
    pose proof (filter_none _ _ Hf r Hr) as Hn. cbv beta in Hn.
    apply Z.eqb_neq in Hn. contradiction.
  - right. exists r. split; [reflexivity|].
    assert (Hin : In r (filter (fun r => c_id (j_client r) =? client_id)
                          (left_join db))) by (rewrite Hf; now left).
    apply filter_In in Hin. destruct Hin as [Hin Hid]. apply Z.eqb_eq in Hid.
    split; [now apply in_left_join|exact Hid].
Qed.

Lemma join_rows_first ts c :
  exists r rs, join_rows ts c = r :: rs /\ j_client r = c.
Proof.
  unfold join_rows. destruct (filter _ ts) as [|t ts']; cbn [map]; eauto.
Qed.

(** The client [add_client] inserts is the one found under the new id. *)
Lemma add_client_lookup os now_type now name folder_path tname date phone
    email notes db :
  path_exists os folder_path = true ->
  exists db' c row,
    add_client os now_type now name folder_path tname date phone email notes
      db = (db', Ok (c_id c))
    /\ clients db' = (clients db ++ [c])%list
    /\ c_name c = name
    /\ c_folder_path c = folder_path
    /\ c_date c = date
    /\ get_client_by_id (c_id c) db' = (db', Ok (Some row))
    /\ j_client row = c.
Proof.
  intros Hex.
  destruct (add_client_effect os now_type now name folder_path tname date
              phone email notes db Hex)
    as (db' & c & t0 & base & avatar & Hadd & _ & Hc & Hcs & _ & _ & _ & _ & _).
  destruct (join_rows_first (types db') c) as (r & rs & Hrows & Hr).
  exists db', c, r. split; [exact Hadd|]. split; [exact Hcs|].
  split; [now rewrite Hc|]. split; [now rewrite Hc|]. split; [now rewrite Hc|].
  split; [|exact Hr].
  rewrite get_client_by_id_eq, left_join_rows, Hcs, flat_map_app, filter_app.
  rewrite (filter_nil_all _ (flat_map _ (clients db))).
  - cbn [flat_map app]. rewrite app_nil_r, filter_all, Hrows; [reflexivity|].
    intros r' Hr'. rewrite (join_rows_client _ _ _ Hr'). apply Z.eqb_refl.
  - intros r' Hr'. apply in_flat_map in Hr'. destruct Hr' as (c' & Hc' & Hr').
    rewrite (join_rows_client _ _ _ Hr'). apply Z.eqb_neq.
    assert (c_id c' < c_id c); [|lia].
    rewrite Hc. cbn [inserted_client c_id].
    apply next_rowid_fresh. now apply in_map.
Qed.

(** X14. [open_client_folder] never changes the store and never raises. It
    does nothing for an id that no client has; it hands a path to
    [os.startfile] only if that path is the stored folder path of a client
    with that id and something exists at it; and it warns only about a path
    at which nothing exists. *)
Theorem open_client_folder_safe (os : OS) (startfile : string -> result unit)
    (client_id : Z) (db : DB) :
  exists action,
    App.open_client_folder os startfile client_id db = (db, Ok action)
    /\ ((forall c, In c (clients db) -> c_id c <> client_id) ->
        action = App.Nothing)
    /\ (forall p, action = App.Opened p ->
          path_exists os p = true /\ startfile p = Ok tt
          /\ exists c, In c (clients db) /\ c_id c = client_id
                       /\ c_folder_path c = p)
    /\ (forall p, action = App.WarnMissing p -> path_exists os p = false).
Proof.
  unfold App.open_client_folder, bind.
  destruct (get_client_by_id_cases client_id db)
    as [[-> Hnone]|(row & -> & Hin & Hid)]; cbn [ret].
  - exists App.Nothing. repeat split; try discriminate.
  - destruct (String.eqb_spec (c_folder_path (j_client row)) "") as [He|Hne].
    + exists App.Nothing. split; [reflexivity|].
      split; [intros Hnone; now destruct (Hnone _ Hin)|].
      split; intros p; discriminate.
    + destruct (path_exists os (c_folder_path (j_client row))) eqn:Hex.
      * destruct (startfile (c_folder_path (j_client row))) as [[]|e] eqn:Hs;
          eexists; (split; [reflexivity|]);
          (split; [intros Hnone; now destruct (Hnone _ Hin)|]);
          split; intros p; try discriminate.
        intros [= <-]. split; [exact Hex|]. split; [exact Hs|].
        exists (j_client row). now repeat split.
      * eexists. split; [reflexivity|].
        split; [intros Hnone; now destruct (Hnone _ Hin)|].
        split; intros p; [discriminate|]. now intros [= <-].
Qed.

(** X15. A client that was just added can be opened: after a successful
    [add_client] with a non-empty path, while the folder still exists and
    [os.startfile] succeeds on it, [open_client_folder] on the returned id
    opens exactly the folder path that was given. *)
Theorem open_added_client_folder os startfile now_type now name folder_path
    tname date phone email notes db :
  path_exists os folder_path = true ->
  folder_path <> "" ->
  startfile folder_path = Ok tt ->
  exists db' client_id,
    add_client os now_type now name folder_path tname date phone email notes
      db = (db', Ok client_id)
    /\ App.open_client_folder os startfile client_id db'
       = (db', Ok (App.Opened folder_path)).
Proof.
  intros Hex Hne Hs.
  destruct (add_client_lookup os now_type now name folder_path tname date
              phone email notes db Hex)
    as (db' & c & row & Hadd & _ & _ & Hf & _ & Hget & Hrow).
  exists db', (c_id c). split; [exact Hadd|].
  unfold App.open_client_folder, bind. rewrite Hget, Hrow, Hf.
  destruct (String.eqb_spec folder_path "") as [He|_]; [contradiction|].
  now rewrite Hex, Hs.
Qed.

(** ** The cards of the grid *)

(** X16. The dictionary built for a card reads the wrong positions for the
    category. A row of the listing has thirteen columns, the category name
    and color being the last two (positions 11 and 12), while
    [refresh_client_grid] takes ['type_name'] from position 10 and
    ['type_color'] from position 11. So for every row the card's
    ['type_name'] is the client's [updated_at], its ['type_color'] is the
    category name, and the category color reaches no entry of the card. *)
Theorem client_dict_category_fields (row : joined) :
  exists d,
    client_dict (row_tuple row) = Ok d
    /\ index (row_tuple row) 11 = Ok (text_value (type_name row))
    /\ index (row_tuple row) 12 = Ok (text_value (type_color row))
    /\ dict_get d "type_name" = Some (text_value (c_updated_at (j_client row)))
    /\ dict_get d "type_color" = Some (text_value (type_name row))
    /\ dict_get d "name" = Some (VText (c_name (j_client row)))
    /\ dict_get d "folder_path" = Some (VText (c_folder_path (j_client row)))
    /\ map fst d = ["id"; "name"; "folder_path"; "type_id"; "date"; "phone";
                    "email"; "notes"; "avatar_path"; "type_name"; "type_color"].
Proof. eexists. repeat split. Qed.

(** X17. The grid gives every card a cell of its own: the i-th card goes to
    row [i // 4] and column [i % 4], the column is one of the four, the cell
    determines the card, and cards fill the rows from left to right. *)
Theorem grid_cell_injective (i j row col : nat) :
  grid_cell i = (row, col) ->
  (col < 4)%nat
  /\ i = (4 * row + col)%nat
  /\ (grid_cell j = (row, col) -> j = i)
  /\ grid_cell (S i) = (if (col =? 3)%nat then (S row, 0%nat) else (row, S col)).
Proof.
  unfold grid_cell. intros H.
  assert (Hrow : row = (i / 4)%nat) by congruence.
  assert (Hcol : col = (i mod 4)%nat) by congruence.
  clear H. subst row col.
  pose proof (Nat.mod_upper_bound i 4 ltac:(discriminate)) as Hi.
  pose proof (Nat.div_mod_eq i 4) as Ei.
  split; [exact Hi|]. split; [exact Ei|]. split.
  - intros Hj. pose proof (f_equal fst Hj) as Hd. pose proof (f_equal snd Hj) as Hm.
    change (j / 4 = i / 4)%nat in Hd. change (j mod 4 = i mod 4)%nat in Hm.
    rewrite Ei, (Nat.div_mod_eq j 4), Hd, Hm. reflexivity.
  - pose proof (Nat.mod_upper_bound (S i) 4 ltac:(discriminate)) as Hs.
    pose proof (Nat.div_mod_eq (S i) 4) as Es.
    destruct (Nat.eqb_spec (i mod 4) 3) as [He|Hne]; f_equal; lia.
Qed.

(** ** The refreshes that follow a change *)

(** What [refresh_client_grid] asks of Tk for one row: the category name, if
    the join found one, as the color of the card's title bar. *)
Lemma card_of_row tk (r : joined) :
  result_bind (client_dict (row_tuple r)) (Card tk)
  = match type_name r with
    | None => Ok tt
    | Some n =>
        if valid_color tk n then Ok tt else Raise (OtherError "TclError")
    end.
Proof. destruct r as [c [n|] tc]; reflexivity. Qed.

Lemma make_cards_cons tk (r : joined) (rest : list joined) :
  make_cards tk (r :: rest)
  = result_bind (result_bind (client_dict (row_tuple r)) (Card tk))
      (fun _ => make_cards tk rest).
Proof.
  cbn [make_cards]. now destruct (client_dict (row_tuple r)).
Qed.

Lemma make_cards_ok tk (rows : list joined) :
  (forall r n, In r rows -> type_name r = Some n -> valid_color tk n = true) ->
  make_cards tk rows = Ok tt.
Proof.
  induction rows as [|r rows IH]; intros H; [reflexivity|].
  rewrite make_cards_cons, card_of_row.
  destruct (type_name r) as [n|] eqn:Hn.
  - rewrite (H r n (or_introl eq_refl) Hn). cbn [result_bind].
    apply IH. intros r' n' Hr'. apply H. now right.
  - cbn [result_bind]. apply IH. intros r' n' Hr'. apply H. now right.
Qed.

Lemma make_cards_raises tk (rows : list joined) r n :
  In r rows -> type_name r = Some n -> valid_color tk n = false ->
  make_cards tk rows = Raise (OtherError "TclError").
Proof.
  intros Hin Hn Hbad. induction rows as [|h rows IH]; [contradiction|].
  rewrite make_cards_cons, card_of_row.
  destruct (type_name h) as [m|] eqn:Hm.
  - destruct (valid_color tk m) eqn:Hv; [|reflexivity]. cbn [result_bind].
    destruct Hin as [->|Hin]; [congruence|now apply IH].
  - cbn [result_bind]. destruct Hin as [->|Hin]; [congruence|now apply IH].
Qed.

(** The two refreshes after a change that succeeded: the store stays as the
    change left it, and the outcome is that of making the cards of all
    clients. *)
Lemma refreshes_after {A} (change : M A) tk db db' (a : A) :
  change db = (db', Ok a) ->
  (change ;;; refresh_type_list ;;; refresh_client_grid tk None) db
  = (db', make_cards tk (order_by by_date_desc_name (left_join db'))).
Proof. intros H. unfold bind at 1. rewrite H. reflexivity. Qed.

Lemma left_join_type_name db r n :
  In r (left_join db) -> type_name r = Some n ->
  exists t, In t (types db) /\ t_name t = n.
Proof.
  rewrite left_join_rows, in_flat_map. intros (c & _ & Hr) Hn.
  unfold join_rows in Hr. destruct (filter _ (types db)) as [|u us] eqn:Hf.
  - destruct Hr as [<-|[]]. discriminate.
  - apply in_map_iff in Hr. destruct Hr as (t & <- & Ht).
    rewrite <- Hf in Ht. apply filter_In in Ht.
    exists t. split; [tauto|]. now injection Hn.
Qed.

(** ** The add-client dialog *)

Lemma existing_type_found tname (ts rows : list type_row) :
  Permutation ts rows ->
  existsb (String.eqb tname) (map t_name rows) = true ->
  filter (name_is tname) ts <> [].
Proof.
  intros Hp He Hnil. apply existsb_exists in He. destruct He as (n & Hn & He).
  apply String.eqb_eq in He. subst n. apply in_map_iff in Hn.
  destruct Hn as (t & Hname & Ht).
  apply (Permutation_in t (Permutation_sym Hp)) in Ht.
  pose proof (filter_none _ _ Hnil t Ht) as Hf. unfold name_is in Hf.
  rewrite Hname, String.eqb_refl in Hf. discriminate.
Qed.

Lemma confirm_add_path_checked os folder_path :
  String.eqb folder_path "" || negb (path_exists os folder_path) = false ->
  path_exists os folder_path = true.
Proof.
  intros H. apply orb_false_iff in H. destruct H as [_ H].
  now apply negb_false_iff in H.
Qed.

(** X18. [confirm_add] creates no category unless the user agreed: when the
    answer to the new-type question is no, the category names after the call
    are those before it, whatever was entered. After a validation message or
    a declined question the store is exactly as before. After the success
    message, and equally after the failure message, the client is in the
    store: the failure can only come from the refreshes, which run when the
    insert is done. *)
Theorem confirm_add_needs_consent os tk now_type now name_entry
    folder_path_var type_entry date_entry askyesno db :
  exists db' m,
    confirm_add os tk now_type now name_entry folder_path_var type_entry
      date_entry askyesno db = (db', m)
    /\ (askyesno = false -> map t_name (types db') = map t_name (types db))
    /\ (m = NameRequired \/ m = FolderInvalid \/ m = TypeRequired
        \/ m = Declined -> db' = db)
    /\ ((exists n, m = Added n) \/ (exists e, m = AddFailed e) ->
        exists c, clients db' = (clients db ++ [c])%list
                  /\ c_name c = strip name_entry
                  /\ c_folder_path c = strip folder_path_var).
Proof.
  unfold confirm_add.
  destruct (String.eqb (strip name_entry) "").
  { eexists _, _. split; [reflexivity|]. split; [reflexivity|].
    split; [reflexivity|]. intros [[n Hn]|[e He]]; discriminate. }
  destruct (String.eqb (strip folder_path_var) ""
            || negb (path_exists os (strip folder_path_var))) eqn:Hp.
  { eexists _, _. split; [reflexivity|]. split; [reflexivity|].
    split; [reflexivity|]. intros [[n Hn]|[e He]]; discriminate. }
  destruct (String.eqb (strip type_entry) "").
  { eexists _, _. split; [reflexivity|]. split; [reflexivity|].
    split; [reflexivity|]. intros [[n Hn]|[e He]]; discriminate. }
  change (get_types db) with (db, Ok (order_by by_count_desc (types db))).
  cbv iota beta.
  destruct (negb (existsb (String.eqb (strip type_entry))
                    (map t_name (order_by by_count_desc (types db))))
            && negb askyesno) eqn:Hd.
  { eexists _, _. split; [reflexivity|]. split; [reflexivity|].
    split; [reflexivity|]. intros [[n Hn]|[e He]]; discriminate. }
  destruct (add_client_effect os now_type now (strip name_entry)
              (strip folder_path_var) (strip type_entry)
              (Some (strip date_entry)) "" "" "" db
              (confirm_add_path_checked _ _ Hp))
    as (db' & c & t0 & base & avatar & Hadd & _ & Hc & Hcs & _ & Hts & _ & _ & Hcase).
  rewrite (refreshes_after _ tk db db' _ Hadd).
  assert (Hnames : askyesno = false ->
                   map t_name (types db') = map t_name (types db)).
  { intros ->. rewrite andb_true_r in Hd. apply negb_false_iff in Hd.
    rewrite Hts, map_recount_name.
    destruct Hcase as [[-> _]|(Hnil & _)]; [reflexivity|].
    now destruct (existing_type_found _ _ _ (order_by_perm _ _) Hd). }
  assert (Hrow : exists c0, clients db' = (clients db ++ [c0])%list
                            /\ c_name c0 = strip name_entry
                            /\ c_folder_path c0 = strip folder_path_var).
  { exists c. split; [exact Hcs|]. now rewrite Hc. }
  destruct (make_cards tk _) as [[]|e]; eexists _, _;
    (split; [reflexivity|]); (split; [exact Hnames|]);
    (split; [|intros _; exact Hrow]);
    intros [H|[H|[H|H]]]; discriminate.
Qed.

(** X19. With a non-blank name, a non-blank path at which something exists,
    and a non-blank type that exists already or that the user agrees to
    create, and when Tk takes every category name, the entered one included,
    for a color, [confirm_add] reports success and appends exactly one
    client, stored with the stripped name, path, and date, which
    [get_client_by_id] then finds. *)
Theorem confirm_add_adds_stripped os tk now_type now name_entry
    folder_path_var type_entry date_entry askyesno db :
  strip name_entry <> "" ->
  strip folder_path_var <> "" ->
  path_exists os (strip folder_path_var) = true ->
  strip type_entry <> "" ->
  askyesno = true \/ In (strip type_entry) (map t_name (types db)) ->
  (forall t, In t (types db) -> valid_color tk (t_name t) = true) ->
  valid_color tk (strip type_entry) = true ->
  exists db' c row,
    confirm_add os tk now_type now name_entry folder_path_var type_entry
      date_entry askyesno db = (db', Added (strip name_entry))
    /\ clients db' = (clients db ++ [c])%list
    /\ c_name c = strip name_entry
    /\ c_folder_path c = strip folder_path_var
    /\ c_date c = Some (strip date_entry)
    /\ get_client_by_id (c_id c) db' = (db', Ok (Some row))
    /\ j_client row = c.
Proof.
  intros Hn Hf Hex Ht Hok Hcolors Hcolor. unfold confirm_add.
  destruct (String.eqb_spec (strip name_entry) "") as [He|_]; [contradiction|].
  destruct (String.eqb_spec (strip folder_path_var) "") as [He|_]; [contradiction|].
  rewrite Hex. cbn [negb orb].
  destruct (String.eqb_spec (strip type_entry) "") as [He|_]; [contradiction|].
  change (get_types db) with (db, Ok (order_by by_count_desc (types db))).
  cbv iota beta.
  assert (Hd : negb (existsb (String.eqb (strip type_entry))
                       (map t_name (order_by by_count_desc (types db))))
               && negb askyesno = false).
  { destruct Hok as [->|Hin]; [apply andb_false_r|].
    apply andb_false_iff. left. apply negb_false_iff, existsb_exists.
    exists (strip type_entry). split; [|apply String.eqb_refl].
    apply (Permutation_in _ (Permutation_map t_name
                               (order_by_perm by_count_desc (types db))) Hin). }
  rewrite Hd.
  destruct (add_client_lookup os now_type now (strip name_entry)
              (strip folder_path_var) (strip type_entry)
              (Some (strip date_entry)) "" "" "" db Hex)
    as (db' & c & row & Hadd & Hcs & Hname & Hfolder & Hdate & Hget & Hrow).
  destruct (add_client_effect os now_type now (strip name_entry)
              (strip folder_path_var) (strip type_entry)
              (Some (strip date_entry)) "" "" "" db Hex)
    as (db2 & c2 & t0 & base & avatar & Hadd2 & _ & _ & _ & _ & Hts & _ & Hname0
        & Hcase).
  rewrite Hadd in Hadd2. injection Hadd2 as <- _.
  rewrite (refreshes_after _ tk db db' _ Hadd), make_cards_ok.
  - exists db', c, row. repeat split; assumption.
  - intros r n Hr Hrn.
    apply (Permutation_in r (Permutation_sym (order_by_perm _ _))) in Hr.
    destruct (left_join_type_name db' r n Hr Hrn) as (t & Htin & <-).
    rewrite Hts in Htin. apply in_map_iff in Htin.
    destruct Htin as (u & <- & Hu). rewrite recount_name.
    destruct Hcase as [[-> _]|(_ & _ & -> & _)]; [now apply Hcolors|].
    apply in_app_or in Hu. destruct Hu as [Hu|[<-|[]]]; [now apply Hcolors|].
    now rewrite Hname0.
Qed.

(** The client [add_client] inserts, as the listing shows it: on a store with
    unique category ids its row carries the category name that was given. *)
Lemma add_client_listed os now_type now name folder_path tname date phone
    email notes db :
  path_exists os folder_path = true ->
  NoDup (map t_id (types db)) ->
  exists db' c row,
    add_client os now_type now name folder_path tname date phone email notes
      db = (db', Ok (c_id c))
    /\ clients db' = (clients db ++ [c])%list
    /\ c_name c = name
    /\ c_folder_path c = folder_path
    /\ In row (left_join db')
    /\ j_client row = c
    /\ type_name row = Some tname.
Proof.
  intros Hex Hnd.
  destruct (add_client_effect os now_type now name folder_path tname date
              phone email notes db Hex)
    as (db' & c & t0 & base & avatar & Hadd & _ & Hc & Hcs & _ & Hts
        & Hin0 & Hname & Hcase).
  pose proof (add_client_base_ids now_type tname db t0 base _ Hnd Hcase) as Hndb.
  set (t1 := recount (t_id t0) (clients db') t0).
  exists db', c, (mkJoined c (Some (t_name t1)) (t_color t1)).
  split; [exact Hadd|]. split; [exact Hcs|].
  split; [now rewrite Hc|]. split; [now rewrite Hc|].
  split; [|split; [reflexivity|]].
  - rewrite left_join_rows, Hcs, flat_map_app. apply in_or_app. right.
    cbn [flat_map]. rewrite app_nil_r. unfold join_rows.
    replace (c_type_id c) with (Some (t_id t0)) by (now rewrite Hc).
    replace (t_id t0) with (t_id t1) by apply recount_id.
    rewrite (filter_unique_id (types db') t1).
    + now left.
    + now rewrite Hts, map_recount_id.
    + rewrite Hts. now apply in_map.
  - cbn [type_name]. unfold t1. now rewrite recount_name, Hname.
Qed.

(** X23. The failure message after a successful insert. With entries that
    pass the checks and a consent where it is asked, on a store with unique
    category ids, when Tk does not take the entered type for a color,
    [confirm_add] answers with the failure message for a TclError although
    the client is in the store, under the stripped name and path: the card
    of the new client is given its category name as the color of its title
    bar. *)
Theorem confirm_add_fails_after_insert os tk now_type now name_entry
    folder_path_var type_entry date_entry askyesno db :
  strip name_entry <> "" ->
  strip folder_path_var <> "" ->
  path_exists os (strip folder_path_var) = true ->
  strip type_entry <> "" ->
  askyesno = true \/ In (strip type_entry) (map t_name (types db)) ->
  NoDup (map t_id (types db)) ->
  valid_color tk (strip type_entry) = false ->
  exists db' c,
    confirm_add os tk now_type now name_entry folder_path_var type_entry
      date_entry askyesno db = (db', AddFailed (OtherError "TclError"))
    /\ clients db' = (clients db ++ [c])%list
    /\ c_name c = strip name_entry
    /\ c_folder_path c = strip folder_path_var.
Proof.
  intros Hn Hf Hex Ht Hok Hnd Hcolor. unfold confirm_add.
  destruct (String.eqb_spec (strip name_entry) "") as [He|_]; [contradiction|].
  destruct (String.eqb_spec (strip folder_path_var) "") as [He|_]; [contradiction|].
  rewrite Hex. cbn [negb orb].
  destruct (String.eqb_spec (strip type_entry) "") as [He|_]; [contradiction|].
  change (get_types db) with (db, Ok (order_by by_count_desc (types db))).
  cbv iota beta.
  assert (Hd : negb (existsb (String.eqb (strip type_entry))
                       (map t_name (order_by by_count_desc (types db))))
               && negb askyesno = false).
  { destruct Hok as [->|Hin]; [apply andb_false_r|].
    apply andb_false_iff. left. apply negb_false_iff, existsb_exists.
    exists (strip type_entry). split; [|apply String.eqb_refl].
    apply (Permutation_in _ (Permutation_map t_name
                               (order_by_perm by_count_desc (types db))) Hin). }
  rewrite Hd.
  destruct (add_client_listed os now_type now (strip name_entry)
              (strip folder_path_var) (strip type_entry)
              (Some (strip date_entry)) "" "" "" db Hex Hnd)
    as (db' & c & row & Hadd & Hcs & Hname & Hfolder & Hrow & _ & Htn).
  rewrite (refreshes_after _ tk db db' _ Hadd).
  rewrite (make_cards_raises tk _ row (strip type_entry)); [| |exact Htn|exact Hcolor].
  - exists db', c. repeat split; assumption.
  - apply (Permutation_in row (order_by_perm _ _) Hrow).
Qed.

(** ** Deleting from the context menu *)

Lemma delete_client_eq client_id db :
  delete_client client_id db
  = (mkDB (filter (fun c => negb (c_id c =? client_id)) (clients db))
          (types db) (clients_seq db) (types_seq db), Ok tt).
Proof. reflexivity. Qed.

(** X20. The context-menu delete removes a client only when it exists and the
    user confirmed, and it never raises. After "not found" and after a
    declined question the store is exactly as before. Otherwise, whether the
    success message or the failure message follows, the rows with that id
    are gone while all other client rows and the whole [types] table are as
    before: the failure can only come from the refreshes, which run when the
    delete is done. *)
Theorem app_delete_client_confirmed (tk : Tk) (client_id : Z) (askyesno : bool)
    (db : DB) :
  exists db' outcome,
    App.delete_client tk client_id askyesno db = (db', Ok outcome)
    /\ (outcome = App.NotFound \/ outcome = App.Kept -> db' = db)
    /\ (outcome = App.Deleted \/ (exists e, outcome = App.DeleteFailed e) <->
        askyesno = true /\ exists c, In c (clients db) /\ c_id c = client_id)
    /\ (outcome = App.Deleted \/ (exists e, outcome = App.DeleteFailed e) ->
        (forall c, In c (clients db') <-> In c (clients db) /\ c_id c <> client_id)
        /\ types db' = types db).
Proof.
  unfold App.delete_client. unfold bind at 1.
  destruct (get_client_by_id_cases client_id db)
    as [[-> Hnone]|(row & -> & Hin & Hid)]; cbn [ret].
  - exists db, App.NotFound. split; [reflexivity|]. split; [reflexivity|].
    split; [split|].
    + intros [H|[e H]]; discriminate.
    + intros (_ & c & Hc & Hcid). now destruct (Hnone c Hc).
    + intros [H|[e H]]; discriminate.
  - destruct askyesno.
    + rewrite (refreshes_after _ tk db _ _ (delete_client_eq client_id db)).
      assert (Hgone : forall db',
                db' = mkDB (filter (fun c => negb (c_id c =? client_id)) (clients db))
                        (types db) (clients_seq db) (types_seq db) ->
                (forall c, In c (clients db') <-> In c (clients db) /\ c_id c <> client_id)
                /\ types db' = types db).
      { intros db' ->. cbn [clients types]. split; [|reflexivity].
        intros c. rewrite filter_In, negb_true_iff, Z.eqb_neq. tauto. }
      destruct (make_cards tk _) as [[]|e]; eexists _, _;
        (split; [reflexivity|]);
        (split; [intros [H|H]; discriminate|]);
        (split; [split; [intros _; split; [reflexivity|eauto]|intros _; eauto]
                |intros _; now apply Hgone]).
    + exists db, App.Kept. split; [reflexivity|]. split; [reflexivity|].
      split; [split|].
      * intros [H|[e H]]; discriminate.
      * now intros [? _].
      * intros [H|[e H]]; discriminate.
Qed.

(** ** Config *)

Lemma dict_get_set_same {V} (d : dict V) key (v : V) :
  dict_get (dict_set d key v) key = Some v.
Proof.
  induction d as [|[k w] d IH]; cbn [dict_set dict_get].
  - now rewrite String.eqb_refl.
  - destruct (String.eqb k key) eqn:He; cbn [dict_get]; rewrite He; auto.
Qed.

Lemma dict_get_set_other {V} (d : dict V) key key' (v : V) :
  key' <> key -> dict_get (dict_set d key v) key' = dict_get d key'.
Proof.
  intros Hne. induction d as [|[k w] d IH]; cbn [dict_set dict_get].
  - destruct (String.eqb_spec key key') as [He|_]; [congruence|reflexivity].
  - destruct (String.eqb_spec k key) as [->|Hk]; cbn [dict_get].
    + destruct (String.eqb_spec key key') as [He|_]; [congruence|reflexivity].
    + now rewrite IH.
Qed.

Lemma dict_set_keys_present {V} (d : dict V) key (v : V) :
  In key (map fst d) -> map fst (dict_set d key v) = map fst d.
Proof.
  induction d as [|[k w] d IH]; [contradiction|]. cbn [map fst dict_set].
  destruct (String.eqb_spec k key) as [->|Hk]; [reflexivity|].
  intros [He|Hin]; [contradiction|]. cbn [map fst]. now rewrite IH.
Qed.

Lemma dict_set_keys_absent {V} (d : dict V) key (v : V) :
  ~ In key (map fst d) -> map fst (dict_set d key v) = (map fst d ++ [key])%list.
Proof.
  induction d as [|[k w] d IH]; [reflexivity|]. cbn [map fst dict_set].
  intros Hnot. destruct (String.eqb_spec k key) as [->|Hk].
  - exfalso. apply Hnot. now left.
  - cbn [map fst app]. rewrite IH; [reflexivity|]. intros Hin. apply Hnot. now right.
Qed.

(** X21. A setting that was set is read back and survives a restart. On a
    configuration that is a JSON object, with a writable file, [set] succeeds;
    [get] then returns the new value for that key, whatever the default, and
    what it returned before for every other key; loading the file again gives
    exactly the configuration in memory; and a key that was present keeps
    its place, a new key goes to the end. *)
Theorem config_set_then_get (backup_path key : string)
    (v default : Config.json) (members : list (string * Config.json))
    (f : Config.file_state) :
  exists members',
    Config.set true key v (Config.mkState (Config.JObj members) f)
    = (Config.mkState (Config.JObj members') (Config.Holds (Config.JObj members')),
       Ok tt)
    /\ Config.get key default
         (Config.mkState (Config.JObj members') (Config.Holds (Config.JObj members')))
       = Ok v
    /\ (forall key', key' <> key ->
          Config.get key' default
            (Config.mkState (Config.JObj members')
               (Config.Holds (Config.JObj members')))
          = Config.get key' default (Config.mkState (Config.JObj members) f))
    /\ Config.load_config backup_path (Config.Holds (Config.JObj members'))
       = Config.JObj members'
    /\ (In key (map fst members) -> map fst members' = map fst members)
    /\ (~ In key (map fst members) ->
        map fst members' = (map fst members ++ [key])%list).
Proof.
  exists (dict_set members key v). split; [reflexivity|].
  unfold Config.get. cbn [Config.config]. split; [now rewrite dict_get_set_same|].
  split; [intros key' Hne; now rewrite dict_get_set_other|].
  split; [reflexivity|].
  split; [apply dict_set_keys_present|apply dict_set_keys_absent].
Qed.

(** X22. How [Config] fails. When the file cannot be written, [set] raises,
    yet the new value is already in memory and [get] returns it, while the
    file, and so the configuration after a restart, is unchanged. And
    [load_config] takes whatever JSON the file holds: when that is not an
    object, every [get] and every [set] raises and nothing is written. *)
Theorem config_failures (backup_path key : string) (v default : Config.json) :
  (forall members f,
      exists st' e,
        Config.set false key v (Config.mkState (Config.JObj members) f)
        = (st', Raise e)
        /\ Config.get key default st' = Ok v
        /\ Config.file st' = f
        /\ Config.load_config backup_path (Config.file st')
           = Config.load_config backup_path f)
  /\ (forall content writable,
        (forall members, content <> Config.JObj members) ->
        let st := Config.mkState
                    (Config.load_config backup_path (Config.Holds content))
                    (Config.Holds content) in
        (exists e, Config.get key default st = Raise e)
        /\ (exists e, Config.set writable key v st = (st, Raise e))).
Proof.
  split.
  - intros members f. eexists _, _. split; [reflexivity|].
    unfold Config.get. cbn [Config.config Config.file].
    split; [now rewrite dict_get_set_same|]. now split.
  - intros content writable Hno. cbn [Config.load_config].
    unfold Config.get, Config.set. cbn [Config.config].
    destruct content; try (split; eexists; reflexivity).
    now destruct (Hno members).
Qed.

(** ** The further properties at concrete inputs *)

Ltac nodup_by_computation :=
  repeat (constructor; [cbn; intuition discriminate|]); constructor.

Lemma keys_unique_mary_tom : keys_unique db_mary_tom.
Proof. repeat split; nodup_by_computation. Defined.

Lemma counts_accurate_mary_tom : counts_accurate db_mary_tom.
Proof. intros t [<-|[]]. reflexivity. Defined.

Lemma types_resolved_mary_tom : types_resolved db_mary_tom.
Proof.
  intros c [<-|[<-|[]]]; exists type_wedding; (split; [left|]; reflexivity).
Defined.

Lemma get_client_by_id_found_iff_witness :
  exists answer,
    get_client_by_id 2 db_mary_tom = (db_mary_tom, Ok answer)
    /\ (answer = None <-> forall c, In c (clients db_mary_tom) -> c_id c <> 2)
    /\ (forall row, answer = Some row ->
          In (j_client row) (clients db_mary_tom) /\ c_id (j_client row) = 2).
Proof. exact (get_client_by_id_found_iff 2 db_mary_tom). Defined.

Lemma add_then_get_client_witness :
  exists db' client_id row,
    add_client os_demo "2024-06-01 10:00:00" "2024-06-01 10:00:01" "Ann"
      "/nas/shoots/tom-2024" "Portrait" (Some "2024-05-30") "555" "" ""
      db_mary_tom = (db', Ok client_id)
    /\ get_client_by_id client_id db' = (db', Ok (Some row))
    /\ c_id (j_client row) = client_id
    /\ c_name (j_client row) = "Ann"
    /\ c_folder_path (j_client row) = "/nas/shoots/tom-2024"
    /\ c_date (j_client row) = Some "2024-05-30"
    /\ c_phone (j_client row) = Some "555"
    /\ c_email (j_client row) = Some ""
    /\ c_notes (j_client row) = Some ""
    /\ Ok (c_avatar_path (j_client row))
       = result_bind (_generate_avatar os_demo "/nas/shoots/tom-2024" "Ann")
           (fun p => Ok (Some p))
    /\ c_created_at (j_client row) = Some "2024-06-01 10:00:01"
    /\ c_updated_at (j_client row) = Some "2024-06-01 10:00:01"
    /\ type_name row = Some "Portrait".
Proof.
  apply (add_then_get_client os_demo "2024-06-01 10:00:00" "2024-06-01 10:00:01"
           "Ann" "/nas/shoots/tom-2024" "Portrait" (Some "2024-05-30") "555" ""
           "" db_mary_tom).
  - reflexivity.
  - nodup_by_computation.
Defined.

Lemma delete_then_get_client_witness :
  exists db',
    delete_client 1 db_mary_tom = (db', Ok tt)
    /\ get_client_by_id 1 db' = (db', Ok None)
    /\ snd (get_client_by_id 2 db') = snd (get_client_by_id 2 db_mary_tom).
Proof.
  destruct (delete_then_get_client 1 db_mary_tom) as (db' & Hd & Hnone & Hother).
  exists db'. split; [exact Hd|]. split; [exact Hnone|].
  apply Hother. discriminate.
Defined.

Lemma add_client_keeps_counts_accurate_witness :
  counts_accurate db_mary_tom_ann.
Proof.
  apply (add_client_keeps_counts_accurate os_demo "2024-06-01 10:00:00"
           "2024-06-01 10:00:01" "Ann" "/nas/shoots/tom-2024" "Portrait"
           (Some "2024-05-30") "555" "" "" db_mary_tom db_mary_tom_ann 3).
  - exact counts_accurate_mary_tom.
  - reflexivity.
Defined.

Lemma add_client_keeps_keys_and_references_witness :
  keys_unique db_mary_tom_ann /\ types_resolved db_mary_tom_ann.
Proof.
  destruct (add_client_keeps_keys_and_references os_demo "2024-06-01 10:00:00"
              "2024-06-01 10:00:01" "Ann" "/nas/shoots/tom-2024" "Portrait"
              (Some "2024-05-30") "555" "" "" db_mary_tom db_mary_tom_ann 3
              eq_refl) as [Hk Hr].
  split; [apply Hk, keys_unique_mary_tom|apply Hr, types_resolved_mary_tom].
Defined.

Lemma delete_client_leaves_count_stale_witness :
  exists db',
    delete_client 1 db_mary_tom = (db', Ok tt)
    /\ In type_wedding (types db')
    /\ t_client_count type_wedding
       = count_clients_of_type 1 (clients db') + 1
    /\ ~ counts_accurate db'
    /\ keys_unique db'.
Proof.
  apply (delete_client_leaves_count_stale db_mary_tom client_mary type_wedding).
  - exact keys_unique_mary_tom.
  - exact counts_accurate_mary_tom.
  - left. reflexivity.
  - left. reflexivity.
  - reflexivity.
Defined.

Lemma update_type_color_frame_witness :
  exists db',
    update_type_color 1 "#FF8B94" db_mary_tom = (db', Ok tt)
    /\ clients db' = clients db_mary_tom
    /\ map t_color (types db') = [Some "#FF8B94"]
    /\ fst (update_type_color 9 "#FF8B94" db_mary_tom) = db_mary_tom.
Proof.
  destruct (update_type_color_frame 1 "#FF8B94" db_mary_tom)
    as (db' & Hu & Hc & _).
  destruct (update_type_color_frame 9 "#FF8B94" db_mary_tom)
    as (db9 & Hu9 & _ & _ & _ & _ & _ & _ & Hnone & _).
  exists db'. split; [exact Hu|]. split; [exact Hc|]. split.
  - injection Hu as <-. reflexivity.
  - rewrite Hu9. apply Hnone. intros t [<-|[]]. discriminate.
Defined.

Lemma update_type_color_shows_witness :
  exists db' rows,
    update_type_color 1 "#FF8B94" db_mary_tom = (db', Ok tt)
    /\ get_all_clients db' = (db', Ok rows)
    /\ map type_color rows = [Some "#FF8B94"; Some "#FF8B94"]
    /\ (forall row, In row rows ->
          c_type_id (j_client row) = Some 1 -> type_name row <> None ->
          type_color row = Some "#FF8B94").
Proof.
  destruct (update_type_color_shows 1 "#FF8B94" db_mary_tom)
    as (db' & rows & Hu & Hall & Hrows & _).
  exists db', rows. split; [exact Hu|]. split; [exact Hall|].
  split; [|exact Hrows].
  injection Hu as <-. injection Hall as <-. reflexivity.
Defined.

Lemma get_stats_distribution_sums_witness :
  exists s,
    get_stats db_mary_tom = (db_mary_tom, Ok s)
    /\ sumZ (map snd (type_distribution s)) = total_clients s.
Proof.
  apply (get_stats_distribution_sums db_mary_tom).
  - exact keys_unique_mary_tom.
  - exact counts_accurate_mary_tom.
  - exact types_resolved_mary_tom.
Defined.

Lemma count_photos_total_witness :
  _count_photos os_demo "/nas/shoots/mary-2024" = Ok 1%nat
  /\ _count_photos os_demo "/nas/shoots/nobody" = Ok 0%nat
  /\ _count_photos os_demo "/nas/shoots/mary-2024/IMG_0001.JPG" = Ok 0%nat.
Proof.
  destruct (count_photos_total os_demo "/nas/shoots/mary-2024")
    as (n1 & -> & _ & _ & H1).
  destruct (count_photos_total os_demo "/nas/shoots/nobody")
    as (n2 & -> & H2 & _).
  destruct (count_photos_total os_demo "/nas/shoots/mary-2024/IMG_0001.JPG")
    as (n3 & -> & _ & H3 & _).
  destruct (H1 ["notes.txt"; "IMG_0001.JPG"] eq_refl) as [-> _].
  rewrite (H2 eq_refl), (H3 (OSError "NotADirectoryError") eq_refl).
  repeat split.
Defined.

Lemma on_search_ignores_surrounding_space_witness :
  App.on_search tk_demo " 　tom " db_mary_tom
  = (clients <- search_clients "tom" ;;
     refresh_client_grid tk_demo (Some clients)) db_mary_tom
  /\ App.on_search tk_demo " 　 " db_mary_tom
     = refresh_client_grid tk_demo None db_mary_tom.
Proof.
  split.
  - apply (proj2 (proj2 (on_search_ignores_surrounding_space tk_demo " 　tom "
                           db_mary_tom))).
    reflexivity.
  - apply (proj1 (proj2 (on_search_ignores_surrounding_space tk_demo " 　 "
                           db_mary_tom))).
    reflexivity.
Defined.

Lemma open_client_folder_safe_witness :
  exists action,
    App.open_client_folder os_demo startfile_ok 7 db_mary_tom
    = (db_mary_tom, Ok action)
    /\ action = App.Nothing.
Proof.
  destruct (open_client_folder_safe os_demo startfile_ok 7 db_mary_tom)
    as (action & Ho & Hnone & _).
  exists action. split; [exact Ho|]. apply Hnone.
  intros c [<-|[<-|[]]]; discriminate.
Defined.

Lemma open_added_client_folder_witness :
  exists db' client_id,
    add_client os_demo "2024-06-01 10:00:00" "2024-06-01 10:00:01" "Ann"
      "/nas/shoots/tom-2024" "Portrait" (Some "2024-05-30") "555" "" ""
      db_mary_tom = (db', Ok client_id)
    /\ App.open_client_folder os_demo startfile_ok client_id db'
       = (db', Ok (App.Opened "/nas/shoots/tom-2024")).
Proof.
  apply (open_added_client_folder os_demo startfile_ok "2024-06-01 10:00:00"
           "2024-06-01 10:00:01" "Ann" "/nas/shoots/tom-2024" "Portrait"
           (Some "2024-05-30") "555" "" "" db_mary_tom).
  - reflexivity.
  - discriminate.
  - reflexivity.
Defined.

Lemma grid_cell_injective_witness :
  (2 < 4)%nat
  /\ 6%nat = (4 * 1 + 2)%nat
  /\ (grid_cell 6 = (1%nat, 2%nat) -> 6%nat = 6%nat)
  /\ grid_cell 7 = (if (2 =? 3)%nat then (2%nat, 0%nat) else (1%nat, 3%nat)).
Proof. exact (grid_cell_injective 6 6 1 2 eq_refl). Defined.

Lemma confirm_add_needs_consent_witness :
  exists db' m,
    confirm_add os_demo tk_demo "2024-06-01 10:00:00" "2024-06-01 10:00:01"
      " Ann " "/nas/shoots/tom-2024" "Portrait" "2024-05-30" false db_mary_tom
    = (db', m)
    /\ map t_name (types db') = map t_name (types db_mary_tom).
Proof.
  destruct (confirm_add_needs_consent os_demo tk_demo "2024-06-01 10:00:00"
              "2024-06-01 10:00:01" " Ann " "/nas/shoots/tom-2024" "Portrait"
              "2024-05-30" false db_mary_tom) as (db' & m & Hc & Hnames & _).
  exists db', m. split; [exact Hc|]. now apply Hnames.
Defined.

Lemma confirm_add_adds_stripped_witness :
  exists db' c row,
    confirm_add os_demo tk_demo "2024-06-01 10:00:00" "2024-06-01 10:00:01"
      " Ann " " /nas/shoots/tom-2024" "red " "2024-05-30 " true db_empty
    = (db', Added (strip " Ann "))
    /\ clients db' = (clients db_empty ++ [c])%list
    /\ c_name c = strip " Ann "
    /\ c_folder_path c = strip " /nas/shoots/tom-2024"
    /\ c_date c = Some (strip "2024-05-30 ")
    /\ get_client_by_id (c_id c) db' = (db', Ok (Some row))
    /\ j_client row = c.
Proof.
  apply (confirm_add_adds_stripped os_demo tk_demo "2024-06-01 10:00:00"
           "2024-06-01 10:00:01" " Ann " " /nas/shoots/tom-2024" "red "
           "2024-05-30 " true db_empty).
  - discriminate.
  - discriminate.
  - reflexivity.
  - discriminate.
  - left. reflexivity.
  - intros t [].
  - reflexivity.
Defined.

Lemma confirm_add_fails_after_insert_witness :
  exists db' c,
    confirm_add os_demo tk_demo "2024-06-01 10:00:00" "2024-06-01 10:00:01"
      " Ann " " /nas/shoots/tom-2024" "Portrait " "2024-05-30 " true
      db_mary_tom
    = (db', AddFailed (OtherError "TclError"))
    /\ clients db' = (clients db_mary_tom ++ [c])%list
    /\ c_name c = strip " Ann "
    /\ c_folder_path c = strip " /nas/shoots/tom-2024".
Proof.
  apply (confirm_add_fails_after_insert os_demo tk_demo "2024-06-01 10:00:00"
           "2024-06-01 10:00:01" " Ann " " /nas/shoots/tom-2024" "Portrait "
           "2024-05-30 " true db_mary_tom).
  - discriminate.
  - discriminate.
  - reflexivity.
  - discriminate.
  - left. reflexivity.
  - nodup_by_computation.
  - reflexivity.
Defined.

Lemma app_delete_client_confirmed_witness :
  exists db' outcome,
    App.delete_client tk_demo 1 true db_mary_tom = (db', Ok outcome)
    /\ (outcome = App.Deleted \/ exists e, outcome = App.DeleteFailed e)
    /\ (forall c, In c (clients db') <-> In c (clients db_mary_tom) /\ c_id c <> 1)
    /\ types db' = types db_mary_tom.
Proof.
  destruct (app_delete_client_confirmed tk_demo 1 true db_mary_tom)
    as (db' & outcome & Hd & _ & Hiff & Hgone).
  assert (Ho : outcome = App.Deleted \/ exists e, outcome = App.DeleteFailed e).
  { apply Hiff. split; [reflexivity|]. exists client_mary.
    split; [left|]; reflexivity. }
  exists db', outcome. split; [exact Hd|]. split; [exact Ho|].
  exact (Hgone Ho).
Defined.

Lemma config_set_then_get_witness :
  exists members',
    Config.set true "nas_path" (Config.JStr "//nas/photo")
      (Config.mkState (Config.JObj config_demo) Config.Missing)
    = (Config.mkState (Config.JObj members')
         (Config.Holds (Config.JObj members')), Ok tt)
    /\ Config.get "nas_path" Config.JNull
         (Config.mkState (Config.JObj members')
            (Config.Holds (Config.JObj members')))
       = Ok (Config.JStr "//nas/photo")
    /\ map fst members' = map fst config_demo.
Proof.
  destruct (config_set_then_get "backups" "nas_path" (Config.JStr "//nas/photo")
              Config.JNull config_demo Config.Missing)
    as (members' & Hs & Hg & _ & _ & Hkeys & _).
  exists members'. split; [exact Hs|]. split; [exact Hg|].
  apply Hkeys. left. reflexivity.
Defined.

Lemma config_failures_witness :
  (exists e,
      Config.get "nas_path" Config.JNull
        (Config.mkState
           (Config.load_config "backups" (Config.Holds (Config.JArr [])))
           (Config.Holds (Config.JArr [])))
      = Raise e)
  /\ exists st' e,
      Config.set false "nas_path" (Config.JStr "//nas/photo")
        (Config.mkState (Config.JObj config_demo) Config.Missing)
      = (st', Raise e)
      /\ Config.get "nas_path" Config.JNull st' = Ok (Config.JStr "//nas/photo")
      /\ Config.file st' = Config.Missing.
Proof.
  destruct (config_failures "backups" "nas_path" (Config.JStr "//nas/photo")
              Config.JNull) as [Hset Hbad].
  split.
  - apply (Hbad (Config.JArr []) true). discriminate.
  - destruct (Hset config_demo Config.Missing) as (st' & e & H1 & H2 & H3 & _).
    now exists st', e.
Defined.
